(** * WatchCBB: game ingestion and season aggregation

  A shallow embedding of [watchcbb/scrape/SportsRefScrape.py] and
  [watchcbb/utils.py], and the properties of the specification that are
  checked against it.

  Conventions of the embedding:
  - Python [int] is [Z]; Python/NumPy [float] is the binary64 [float] of
    the kernel ([PrimFloat]), so sums and quotients round as they do in
    the program; a cell of an [int64] column is a [Z] and the arithmetic
    of two such columns wraps around;
  - [str] is [string], for the strings whose characters have code points
    below 256; comparison of strings is the lexicographic order on
    characters, as Python's [<] on [str];
  - a [dict] is a [gmap]; a list is a [list];
  - a raised exception is the [Raise] case of [res]. *)

From Stdlib Require Import ZArith Floats Ascii String List Bool Lia Permutation.
From stdpp Require Import base option list gmap strings fin_maps pretty sorting.

Set Warnings "-inexact-float".
Local Open Scope string_scope.
Local Open Scope Z_scope.

(* ===================================================================== *)
(** * Python primitives the program relies on                              *)
(* ===================================================================== *)

Module Py.

(** A [string] stands for a Python [str] whose characters have code points
    below 256, and an [ascii] for one such character. *)

(** Exceptions that the modelled code can raise. *)
Inductive exn : Type :=
| KeyError (key : string)
| IndexError
| ValueError
| TypeError
| AttributeError
| OverflowError
| ZeroDivisionError
| Exception (msg : string).

(** Result of a computation that may raise. *)
Inductive res (A : Type) : Type :=
| Ok (a : A)
| Raise (e : exn).
Arguments Ok {A} a.
Arguments Raise {A} e.

Definition bind {A B} (m : res A) (k : A -> res B) : res B :=
  match m with
  | Ok a => k a
  | Raise e => Raise e
  end.

(** Whether a computation returns. *)
Definition is_ok {A} (m : res A) : bool :=
  match m with
  | Ok _ => true
  | Raise _ => false
  end.

(** Whether an optional value is there. *)
Definition has_value {A} (m : option A) : bool :=
  match m with
  | Some _ => true
  | None => false
  end.

(** [d[k]] on a dict with string keys. *)
Definition getitem {V} (d : gmap string V) (k : string) : res V :=
  match d !! k with
  | Some v => Ok v
  | None => Raise (KeyError k)
  end.

(** [s.find(sub)]: the lowest index at which [sub] occurs in [s], or -1. *)
Fixpoint find_from (sub s : string) (i : Z) : Z :=
  if String.prefix sub s then i
  else match s with
       | EmptyString => -1
       | String _ s' => find_from sub s' (i + 1)
       end.

Definition str_find (s sub : string) : Z := find_from sub s 0.

(** [s[i]] for a string: a negative index counts from the end, an index
    out of range raises IndexError. *)
Definition str_index (s : string) (i : Z) : res string :=
  let n := Z.of_nat (String.length s) in
  let j := if i <? 0 then i + n else i in
  if (j <? 0) || (n <=? j) then Raise IndexError
  else match String.get (Z.to_nat j) s with
       | Some c => Ok (String c EmptyString)
       | None => Raise IndexError
       end.

(** [a < b] on strings. *)
Definition str_lt (a b : string) : bool := String.ltb a b.

(** [sorted([a, b])]: the sort is stable, so the pair is swapped only
    when [b < a]. *)
Definition sorted2 (a b : string) : string * string :=
  if str_lt b a then (b, a) else (a, b).

(** [l[i]] for a list and an index [i >= 0]. *)
Definition list_index {A} (l : list A) (i : nat) : res A :=
  match l !! i with
  | Some x => Ok x
  | None => Raise IndexError
  end.

(** [s.split(sep)] for a separator of one character. *)
Fixpoint split_on (sep : ascii) (s : string) : list string :=
  match s with
  | EmptyString => [EmptyString]
  | String c s' =>
      if Ascii.eqb c sep then EmptyString :: split_on sep s'
      else match split_on sep s' with
           | [] => [String c EmptyString]
           | w :: ws => String c w :: ws
           end
  end.

(** The characters that [str.isspace] accepts, among the 256 that a
    character of [string] can be: the ASCII blanks and separators, the
    next-line control U+0085 and the no-break space U+00A0. *)
Definition is_space (c : ascii) : bool :=
  let n := N_of_ascii c in
  ((9 <=? n) && (n <=? 13) || (28 <=? n) && (n <=? 32) || (n =? 133) || (n =? 160))%N.

(** [s.split()]: the maximal runs of characters that are not blank. *)
Fixpoint split_ws_from (cur s : string) : list string :=
  match s with
  | EmptyString => if String.eqb cur "" then [] else [cur]
  | String c s' =>
      if is_space c
      then (if String.eqb cur "" then split_ws_from "" s'
            else cur :: split_ws_from "" s')
      else split_ws_from (cur +:+ String c EmptyString) s'
  end.
Definition split_ws (s : string) : list string := split_ws_from "" s.

(** [s.strip()] *)
Fixpoint lstrip (s : string) : string :=
  match s with
  | EmptyString => EmptyString
  | String c s' => if is_space c then lstrip s' else s
  end.
Fixpoint rstrip (s : string) : string :=
  match s with
  | EmptyString => EmptyString
  | String c s' =>
      match rstrip s' with
      | EmptyString => if is_space c then EmptyString else String c EmptyString
      | r => String c r
      end
  end.
Definition strip (s : string) : string := lstrip (rstrip s).

(** [int(s)] on a string: blanks around, an optional sign, then decimal
    digits, with single [_] allowed between two digits, and no bound on
    their number. Among the 256 characters of [string] the decimal digits
    are ["0"] to ["9"]. *)
Definition digit_val (c : ascii) : option Z :=
  let n := N_of_ascii c in
  if ((48 <=? n) && (n <=? 57))%N then Some (Z.of_N n - 48) else None.

(** The value of the digits of [s] after those that gave [acc]; a [_] is
    passed over when a digit follows it. *)
Fixpoint digits_val (acc : Z) (s : string) : option Z :=
  match s with
  | EmptyString => Some acc
  | String c s' =>
      match digit_val c with
      | Some d => digits_val (10 * acc + d) s'
      | None =>
          if Ascii.eqb c "_"
          then match s' with
               | String c' _ =>
                   match digit_val c' with
                   | Some _ => digits_val acc s'
                   | None => None
                   end
               | EmptyString => None
               end
          else None
      end
  end.

Definition int_of_str (s : string) : res Z :=
  let unsigned (t : string) : res Z :=
    match t with
    | EmptyString => Raise ValueError
    | String c _ =>
        match digit_val c, digits_val 0 t with
        | Some _, Some n => Ok n
        | _, _ => Raise ValueError
        end
    end in
  match strip s with
  | String "-" t => match unsigned t with Ok n => Ok (- n) | Raise e => Raise e end
  | String "+" t => unsigned t
  | t => unsigned t
  end.

(** [str(n)] for an integer. *)
Definition str_of_int (n : Z) : string := pretty n.

(** The line feed. *)
Definition LF : string := String (ascii_of_nat 10) EmptyString.

End Py.

Import Py.

#[global] Instance res_ret : MRet res := fun _ a => Ok a.
#[global] Instance res_bind : MBind res := fun _ _ k m => bind m k.

(* ===================================================================== *)
(** * watchcbb/utils.py                                                    *)
(* ===================================================================== *)

Module Utils.

(** ** [is_upset], [get_df_upset_prob] *)

(** [(r1 < 0 and 0 < r2 <= 20) or (r1 > 0 and r2 > 0 and r1-r2 > 10)] *)
Definition is_upset (r1 r2 : Z) : bool :=
  ((r1 <? 0) && ((0 <? r2) && (r2 <=? 20)))
  || ((0 <? r1) && (0 <? r2) && (10 <? r1 - r2)).

(** The fields of a prediction row that [get_df_upset_prob] reads. *)
Record PredRow : Type := {
  rank1 : Z;
  rank2 : Z;
  prob : float
}.

Definition get_df_upset_prob (row : PredRow) : float :=
  if is_upset (rank1 row) (rank2 row) then prob row
  else if is_upset (rank2 row) (rank1 row) then (1 - prob row)%float
  else 0%float.

(** ** The loser's location in [compute_season_stats] *)

(** ['HNA'['ANH'.find(row.WLoc)]] *)
Definition loser_HA (wloc : string) : res string :=
  str_index "HNA" (str_find "ANH" wloc).

(** ** Box scores: one integer per name of [STATNAMES] *)

Inductive StatName : Type :=
| Score | FGM | FGA | FGM3 | FGA3 | FTM | FTA | OR | DR | Ast | TO | Stl | Blk | PF.

Definition STATNAMES : list StatName :=
  [Score; FGM; FGA; FGM3; FGA3; FTM; FTA; OR; DR; Ast; TO; Stl; Blk; PF].

Record Box : Type := {
  b_Score : Z; b_FGM : Z; b_FGA : Z; b_FGM3 : Z; b_FGA3 : Z; b_FTM : Z; b_FTA : Z;
  b_OR : Z; b_DR : Z; b_Ast : Z; b_TO : Z; b_Stl : Z; b_Blk : Z; b_PF : Z
}.

Definition box_zero : Box :=
  {| b_Score := 0; b_FGM := 0; b_FGA := 0; b_FGM3 := 0; b_FGA3 := 0; b_FTM := 0;
     b_FTA := 0; b_OR := 0; b_DR := 0; b_Ast := 0; b_TO := 0; b_Stl := 0;
     b_Blk := 0; b_PF := 0 |}.

Definition box_get (sn : StatName) (b : Box) : Z :=
  match sn with
  | Score => b_Score b | FGM => b_FGM b | FGA => b_FGA b | FGM3 => b_FGM3 b
  | FGA3 => b_FGA3 b | FTM => b_FTM b | FTA => b_FTA b | OR => b_OR b
  | DR => b_DR b | Ast => b_Ast b | TO => b_TO b | Stl => b_Stl b
  | Blk => b_Blk b | PF => b_PF b
  end.

Definition box_set (sn : StatName) (v : Z) (b : Box) : Box :=
  let '{| b_Score := x1; b_FGM := x2; b_FGA := x3; b_FGM3 := x4; b_FGA3 := x5;
          b_FTM := x6; b_FTA := x7; b_OR := x8; b_DR := x9; b_Ast := x10;
          b_TO := x11; b_Stl := x12; b_Blk := x13; b_PF := x14 |} := b in
  match sn with
  | Score => Build_Box v x2 x3 x4 x5 x6 x7 x8 x9 x10 x11 x12 x13 x14
  | FGM => Build_Box x1 v x3 x4 x5 x6 x7 x8 x9 x10 x11 x12 x13 x14
  | FGA => Build_Box x1 x2 v x4 x5 x6 x7 x8 x9 x10 x11 x12 x13 x14
  | FGM3 => Build_Box x1 x2 x3 v x5 x6 x7 x8 x9 x10 x11 x12 x13 x14
  | FGA3 => Build_Box x1 x2 x3 x4 v x6 x7 x8 x9 x10 x11 x12 x13 x14
  | FTM => Build_Box x1 x2 x3 x4 x5 v x7 x8 x9 x10 x11 x12 x13 x14
  | FTA => Build_Box x1 x2 x3 x4 x5 x6 v x8 x9 x10 x11 x12 x13 x14
  | OR => Build_Box x1 x2 x3 x4 x5 x6 x7 v x9 x10 x11 x12 x13 x14
  | DR => Build_Box x1 x2 x3 x4 x5 x6 x7 x8 v x10 x11 x12 x13 x14
  | Ast => Build_Box x1 x2 x3 x4 x5 x6 x7 x8 x9 v x11 x12 x13 x14
  | TO => Build_Box x1 x2 x3 x4 x5 x6 x7 x8 x9 x10 v x12 x13 x14
  | Stl => Build_Box x1 x2 x3 x4 x5 x6 x7 x8 x9 x10 x11 v x13 x14
  | Blk => Build_Box x1 x2 x3 x4 x5 x6 x7 x8 x9 x10 x11 x12 v x14
  | PF => Build_Box x1 x2 x3 x4 x5 x6 x7 x8 x9 x10 x11 x12 x13 v
  end.

(** ** [compute_season_stats] *)

(** One row of the per-game data frame: the columns read by
    [compute_season_stats] and [compile_training_data]. [Wbox] holds the
    columns ["W"+sn], [Lbox] the columns ["L"+sn]; so [row.WScore] is
    [b_Score (Wbox row)]. A rank that is not available is [None]. *)
Record Game : Type := {
  Season : Z;
  Date : string;
  gid : string;
  WTeamID : string;
  LTeamID : string;
  Wbox : Box;
  Lbox : Box;
  WLoc : string;
  NumOT : Z;
  row_poss : float;
  Wrank : option Z;
  Lrank : option Z
}.

(** The accumulator [stats[year][tid]]: field names are the dict keys;
    [T] and [O] hold the keys ["T"+sn] and ["O"+sn]. *)
Record TeamSeasonStats : Type := {
  wins : Z;
  losses : Z;
  totOT : Z;
  totPoss : float;
  opps : list string;
  scores : list (Z * Z);
  HA : list string;
  poss : list float;
  nOT : list Z;
  T : Box;
  O : Box
}.

(** The values set when a team is seen for the first time. *)
Definition init_stats : TeamSeasonStats :=
  {| wins := 0; losses := 0; totOT := 0; totPoss := 0%float;
     opps := []; scores := []; HA := []; poss := []; nOT := [];
     T := box_zero; O := box_zero |}.

(** Field updates, one per kind of assignment in the loop body. *)
Definition add_T (sn : StatName) (v : Z) (a : TeamSeasonStats) : TeamSeasonStats :=
  {| wins := wins a; losses := losses a; totOT := totOT a; totPoss := totPoss a;
     opps := opps a; scores := scores a; HA := HA a; poss := poss a; nOT := nOT a;
     T := box_set sn (box_get sn (T a) + v) (T a); O := O a |}.
Definition add_O (sn : StatName) (v : Z) (a : TeamSeasonStats) : TeamSeasonStats :=
  {| wins := wins a; losses := losses a; totOT := totOT a; totPoss := totPoss a;
     opps := opps a; scores := scores a; HA := HA a; poss := poss a; nOT := nOT a;
     T := T a; O := box_set sn (box_get sn (O a) + v) (O a) |}.
Definition add_wins (v : Z) (a : TeamSeasonStats) : TeamSeasonStats :=
  {| wins := wins a + v; losses := losses a; totOT := totOT a; totPoss := totPoss a;
     opps := opps a; scores := scores a; HA := HA a; poss := poss a; nOT := nOT a;
     T := T a; O := O a |}.
Definition add_losses (v : Z) (a : TeamSeasonStats) : TeamSeasonStats :=
  {| wins := wins a; losses := losses a + v; totOT := totOT a; totPoss := totPoss a;
     opps := opps a; scores := scores a; HA := HA a; poss := poss a; nOT := nOT a;
     T := T a; O := O a |}.
Definition add_totOT (v : Z) (a : TeamSeasonStats) : TeamSeasonStats :=
  {| wins := wins a; losses := losses a; totOT := totOT a + v; totPoss := totPoss a;
     opps := opps a; scores := scores a; HA := HA a; poss := poss a; nOT := nOT a;
     T := T a; O := O a |}.
Definition add_totPoss (v : float) (a : TeamSeasonStats) : TeamSeasonStats :=
  {| wins := wins a; losses := losses a; totOT := totOT a;
     totPoss := (totPoss a + v)%float;
     opps := opps a; scores := scores a; HA := HA a; poss := poss a; nOT := nOT a;
     T := T a; O := O a |}.
Definition append_opps (v : string) (a : TeamSeasonStats) : TeamSeasonStats :=
  {| wins := wins a; losses := losses a; totOT := totOT a; totPoss := totPoss a;
     opps := opps a ++ [v]; scores := scores a; HA := HA a; poss := poss a;
     nOT := nOT a; T := T a; O := O a |}.
Definition append_scores (v : Z * Z) (a : TeamSeasonStats) : TeamSeasonStats :=
  {| wins := wins a; losses := losses a; totOT := totOT a; totPoss := totPoss a;
     opps := opps a; scores := scores a ++ [v]; HA := HA a; poss := poss a;
     nOT := nOT a; T := T a; O := O a |}.
Definition append_HA (v : string) (a : TeamSeasonStats) : TeamSeasonStats :=
  {| wins := wins a; losses := losses a; totOT := totOT a; totPoss := totPoss a;
     opps := opps a; scores := scores a; HA := HA a ++ [v]; poss := poss a;
     nOT := nOT a; T := T a; O := O a |}.
Definition append_poss (v : float) (a : TeamSeasonStats) : TeamSeasonStats :=
  {| wins := wins a; losses := losses a; totOT := totOT a; totPoss := totPoss a;
     opps := opps a; scores := scores a; HA := HA a; poss := poss a ++ [v];
     nOT := nOT a; T := T a; O := O a |}.
Definition append_nOT (v : Z) (a : TeamSeasonStats) : TeamSeasonStats :=
  {| wins := wins a; losses := losses a; totOT := totOT a; totPoss := totPoss a;
     opps := opps a; scores := scores a; HA := HA a; poss := poss a;
     nOT := nOT a ++ [v]; T := T a; O := O a |}.

(** The nested dict [stats[year][tid]]. *)
Abbreviation Stats := (gmap Z (gmap string TeamSeasonStats)).

(** [stats[year][tid]], when both keys are present. *)
Definition lookup_team (year : Z) (tid : string) (stats : Stats)
  : option TeamSeasonStats :=
  stats !! year ≫= fun teams => teams !! tid.

(** An in-place update [stats[year][tid][field] op= v]. The loop only
    updates accumulators that it has initialised before. *)
Definition update_team (year : Z) (tid : string)
    (f : TeamSeasonStats -> TeamSeasonStats) (stats : Stats) : Stats :=
  alter (alter f tid) year stats.

(** [if year not in stats: stats[year] = {}] *)
Definition ensure_year (year : Z) (stats : Stats) : Stats :=
  match stats !! year with
  | Some _ => stats
  | None => <[year := ∅]> stats
  end.

(** [if tid not in stats[year]: stats[year][tid] = {...zeros...}] *)
Definition ensure_team (year : Z) (tid : string) (stats : Stats) : Stats :=
  match lookup_team year tid stats with
  | Some _ => stats
  | None => alter (insert tid init_stats) year stats
  end.

(** One pass of [for sn in STATNAMES]. *)
Definition add_statname (row : Game) (stats : Stats) (sn : StatName) : Stats :=
  let year := Season row in
  let wid := WTeamID row in
  let lid := LTeamID row in
  let stats := update_team year wid (add_T sn (box_get sn (Wbox row))) stats in
  let stats := update_team year wid (add_O sn (box_get sn (Lbox row))) stats in
  let stats := update_team year lid (add_T sn (box_get sn (Lbox row))) stats in
  let stats := update_team year lid (add_O sn (box_get sn (Wbox row))) stats in
  stats.

(** The body of [for irow,row in df.iterrows()]. The expression for the
    loser's location can raise only through the string index. *)
Definition season_step (stats : Stats) (row : Game) : res Stats :=
  let year := Season row in
  let wid := WTeamID row in
  let lid := LTeamID row in
  let stats := ensure_year year stats in
  let stats := fold_left (fun st tid => ensure_team year tid st) [wid; lid] stats in
  let stats := fold_left (add_statname row) STATNAMES stats in
  let stats := update_team year wid (add_wins 1) stats in
  let stats := update_team year lid (add_losses 1) stats in
  let stats := update_team year wid (add_totOT (NumOT row)) stats in
  let stats := update_team year lid (add_totOT (NumOT row)) stats in
  let stats := update_team year wid (add_totPoss (row_poss row)) stats in
  let stats := update_team year lid (add_totPoss (row_poss row)) stats in
  let stats := update_team year wid (append_opps lid) stats in
  let stats := update_team year lid (append_opps wid) stats in
  let stats := update_team year wid
                 (append_scores (b_Score (Wbox row), b_Score (Lbox row))) stats in
  let stats := update_team year lid
                 (append_scores (b_Score (Lbox row), b_Score (Wbox row))) stats in
  let stats := update_team year wid (append_HA (WLoc row)) stats in
  flipped ← loser_HA (WLoc row);
  let stats := update_team year lid (append_HA flipped) stats in
  let stats := update_team year wid (append_poss (row_poss row)) stats in
  let stats := update_team year lid (append_poss (row_poss row)) stats in
  let stats := update_team year wid (append_nOT (NumOT row)) stats in
  let stats := update_team year lid (append_nOT (NumOT row)) stats in
  mret stats.

(** The loop over the rows, from a given dict. *)
Fixpoint season_loop (stats : Stats) (df : list Game) : res Stats :=
  match df with
  | [] => mret stats
  | row :: df' => stats' ← season_step stats row; season_loop stats' df'
  end.

Definition compute_season_stats (df : list Game) : res Stats :=
  season_loop ∅ df.

(** ** [add_advanced_stats] *)

(** A data frame is a dict of columns; a column holds one cell per row,
    all of one type: numpy's [int64], as the totals of the aggregated table
    are, or [float64]. An [int64] cell is an integer from [-2^63] to
    [2^63 - 1]. *)
Inductive Series : Type :=
| Int64 (cells : list Z)
| Float64 (cells : list float).

Abbreviation DataFrame := (gmap string Series).

(** The wrap-around of [int64] arithmetic. *)
Definition wrap64 (z : Z) : Z := (z + 2 ^ 63) mod 2 ^ 64 - 2 ^ 63.

(** The [float] nearest to an integer, ties to even: the conversion that
    an arithmetic operation does on an integer operand that meets a float
    one. Beyond the range of [float] the value is infinite. *)
Definition float_of_Z (z : Z) : float :=
  SF2Prim (binary_normalize prec emax z 0 false).

(** The cells of a column as [float64]. *)
Definition to_float64 (s : Series) : list float :=
  match s with
  | Int64 cells => float_of_Z <$> cells
  | Float64 cells => cells
  end.

(** Element-wise arithmetic of two columns of one frame, and of a Python
    float with a column. The sum and the difference of two [int64] columns
    are [int64] columns and wrap around; when one operand is [float64] the
    other is converted first. The quotient [/] and the product with a
    Python float are always [float64], the [int64] operands converted
    first. *)
Definition s_add (a b : Series) : Series :=
  match a, b with
  | Int64 x, Int64 y => Int64 (zip_with (fun p q => wrap64 (p + q)) x y)
  | _, _ => Float64 (zip_with PrimFloat.add (to_float64 a) (to_float64 b))
  end.
Definition s_sub (a b : Series) : Series :=
  match a, b with
  | Int64 x, Int64 y => Int64 (zip_with (fun p q => wrap64 (p - q)) x y)
  | _, _ => Float64 (zip_with PrimFloat.sub (to_float64 a) (to_float64 b))
  end.
Definition s_div (a b : Series) : Series :=
  Float64 (zip_with PrimFloat.div (to_float64 a) (to_float64 b)).
Definition s_scale (k : float) (a : Series) : Series :=
  Float64 (PrimFloat.mul k <$> to_float64 a).

(** The body of [for c in ('T','O')]. *)
Definition advanced_side (df : DataFrame) (c : string) : res DataFrame :=
  let opp := if String.eqb c "O" then "T" else "O" in
  (* df[c+'poss'] *)
  fga ← getitem df (c +:+ "FGA");
  fta ← getitem df (c +:+ "FTA");
  orb ← getitem df (c +:+ "OR");
  tov ← getitem df (c +:+ "TO");
  let df := <[c +:+ "poss" := s_add (s_sub (s_add fga (s_scale 0.44 fta)) orb) tov]> df in
  (* df[c+'eff'] *)
  score ← getitem df (c +:+ "Score");
  possc ← getitem df (c +:+ "poss");
  let df := <[c +:+ "eff" := s_div (s_scale 100 score) possc]> df in
  (* df[c+'astr'] *)
  ast ← getitem df (c +:+ "Ast");
  fga ← getitem df (c +:+ "FGA");
  fta ← getitem df (c +:+ "FTA");
  ast' ← getitem df (c +:+ "Ast");
  tov ← getitem df (c +:+ "TO");
  let df := <[c +:+ "astr" :=
                s_div ast (s_add (s_add (s_add fga (s_scale 0.44 fta)) ast') tov)]> df in
  (* df[c+'tovr'] *)
  tov ← getitem df (c +:+ "TO");
  fga ← getitem df (c +:+ "FGA");
  fta ← getitem df (c +:+ "FTA");
  tov' ← getitem df (c +:+ "TO");
  let df := <[c +:+ "tovr" := s_div tov (s_add (s_add fga (s_scale 0.44 fta)) tov')]> df in
  (* df[c+'efgp'] *)
  fgm ← getitem df (c +:+ "FGM");
  fgm3 ← getitem df (c +:+ "FGM3");
  fga ← getitem df (c +:+ "FGA");
  let df := <[c +:+ "efgp" := s_div (s_add fgm (s_scale 0.5 fgm3)) fga]> df in
  (* df[c+'orbp'] *)
  orb ← getitem df (c +:+ "OR");
  orb' ← getitem df (c +:+ "OR");
  odr ← getitem df (opp +:+ "DR");
  let df := <[c +:+ "orbp" := s_div orb (s_add orb' odr)]> df in
  (* df[c+'ftr'] *)
  fta ← getitem df (c +:+ "FTA");
  fga ← getitem df (c +:+ "FGA");
  let df := <[c +:+ "ftr" := s_div fta fga]> df in
  mret df.

(** The frame is changed in place; the model returns the changed frame. *)
Definition add_advanced_stats (df : DataFrame) : res DataFrame :=
  df ← advanced_side df "T";
  df ← advanced_side df "O";
  tposs ← getitem df "Tposs";
  oposs ← getitem df "Oposs";
  w ← getitem df "wins";
  l ← getitem df "losses";
  ot ← getitem df "totOT";
  mret (<["rawpace" :=
            s_div (s_scale 0.5 (s_add tposs oposs))
                  (s_add (s_add w l) (s_scale 0.125 ot))]> df).

(** ** [compile_training_data] *)


(** Conversion of a Python [int] to [float], as done by an arithmetic
    operation with a float operand: OverflowError when the integer is
    beyond the range of [float]. *)
Definition float_of_int (z : Z) : res float :=
  let f := float_of_Z z in
  if PrimFloat.is_infinity f then Raise OverflowError else Ok f.


(** [season_stats_dict[season][team_id][stat_name]], as left by the rating
    pass: every stat read here is a float. *)
Abbreviation SeasonStatsDict := (gmap Z (gmap string (gmap string float))).








End Utils.

(* ===================================================================== *)
(** * The [datetime.date] operations used by the scraper                   *)
(* ===================================================================== *)

Module Calendar.

Record date : Type := { year : Z; month : Z; day : Z }.

Definition is_leap (y : Z) : bool :=
  ((y mod 4 =? 0) && negb (y mod 100 =? 0)) || (y mod 400 =? 0).

Definition days_in_month (y m : Z) : Z :=
  if m =? 2 then (if is_leap y then 29 else 28)
  else if (m =? 4) || (m =? 6) || (m =? 9) || (m =? 11) then 30
  else 31.

(** [dt.date(y, m, d)] raises ValueError outside the calendar. *)
Definition mk_date (y m d : Z) : res date :=
  if (1 <=? y) && (y <=? 9999) && (1 <=? m) && (m <=? 12)
     && (1 <=? d) && (d <=? days_in_month y m)
  then Ok {| year := y; month := m; day := d |}
  else Raise ValueError.

(** The call of [dt.date] on the unpacked list [int(x) for x in s.split("-")]:
    the integers are read first, then the constructor is called, which
    takes exactly three of them. *)
Fixpoint ints_of (l : list string) : res (list Z) :=
  match l with
  | [] => mret []
  | x :: l' => n ← int_of_str x; ns ← ints_of l'; mret (n :: ns)
  end.

Definition parse_date (s : string) : res date :=
  ns ← ints_of (split_on "-" s);
  match ns with
  | [y; m; d] => mk_date y m d
  | _ => Raise TypeError
  end.

(** [d - dt.timedelta(1)] *)
Definition minus_one_day (d : date) : res date :=
  if 1 <? day d then Ok {| year := year d; month := month d; day := day d - 1 |}
  else if 1 <? month d
       then Ok {| year := year d; month := month d - 1;
                  day := days_in_month (year d) (month d - 1) |}
       else if 1 <? year d
            then Ok {| year := year d - 1; month := 12; day := 31 |}
            else Raise OverflowError.

(** [a < b] on dates. *)
Definition date_lt (a b : date) : bool :=
  (year a <? year b)
  || ((year a =? year b)
      && ((month a <? month b) || ((month a =? month b) && (day a <? day b)))).

(** Decimal digits of [n], padded with zeros on the left up to [width]. *)
Fixpoint zeros (k : nat) : string :=
  match k with
  | O => EmptyString
  | S k' => String "0" (zeros k')
  end.
Definition zero_pad (width : nat) (n : Z) : string :=
  let digits := str_of_int n in
  zeros (width - String.length digits) +:+ digits.

(** [str(d)]: the ISO form [YYYY-MM-DD]. *)
Definition date_str (d : date) : string :=
  zero_pad 4 (year d) +:+ "-" +:+ zero_pad 2 (month d) +:+ "-" +:+ zero_pad 2 (day d).

End Calendar.

(* ===================================================================== *)
(** * watchcbb/scrape/SportsRefScrape.py                                   *)
(* ===================================================================== *)

Module Scrape.

Import Calendar.

(** ** [get_gid] *)

Definition get_gid (date t1 t2 : string) : string :=
  let tnames := sorted2 t1 t2 in
  date +:+ "_" +:+ fst tnames +:+ "_" +:+ snd tnames.

(** ** The pages, as the parser hands them over *)

(** One [tr] of the game-log table. [date_game_a] and [opp_id_a] are the
    link inside the date and the opponent cell ([None] when the cell has no
    link): the text of the first, the school code in the address of the
    second. [game_result_small] is the text of the [small] element of the
    result cell. [cells] gives, for a [data-stat] name, the [.string] of
    that cell, [None] for an empty cell; a name without a cell is absent. *)
Record TR : Type := {
  tr_id : option string;
  date_game_a : option string;
  opp_id_a : option string;
  game_result_small : option string;
  cells : gmap string (option string)
}.

(** One row of the schedule table: the [csk] key of its date cell and the
    [.string] of its [game_type] cell. *)
Record SchedRow : Type := {
  csk : string;
  game_type : option string
}.

(** [tr.find("td", {"data-stat": name}).string] *)
Definition cell_string (tr : TR) (name : string) : res (option string) :=
  match cells tr !! name with
  | Some s => Ok s
  | None => Raise AttributeError
  end.

(** ** The two dicts of [get_game_data] *)

Record State : Type := {
  gids : gmap string (list string);
  rows : gmap string (list string)
}.

Definition empty_state : State := {| gids := ∅; rows := ∅ |}.

(** [if date not in gids.keys(): gids[date] = []; rows[date] = []] *)
Definition declare_bucket (date : string) (st : State) : State :=
  match gids st !! date with
  | Some _ => st
  | None => {| gids := <[date := []]> (gids st); rows := <[date := []]> (rows st) |}
  end.

(** [d[date].append(x)] *)
Definition bucket_append (d : gmap string (list string)) (date x : string)
  : res (gmap string (list string)) :=
  l ← getitem d date; mret (<[date := (l ++ [x])%list]> d).

(** ** Reading the old file *)

Definition load_line (st : State) (line : string) : res State :=
  let sp := split_on "," (strip line) in
  date ← list_index sp 1;
  w ← list_index sp 3;
  l ← list_index sp 5;
  let gid := get_gid date w l in
  let st := declare_bucket date st in
  rows' ← bucket_append (rows st) date line;
  gids' ← bucket_append (gids st) date gid;
  mret {| gids := gids'; rows := rows' |}.

Fixpoint load_lines (st : State) (lines : list string) : res State :=
  match lines with
  | [] => mret st
  | line :: rest => st' ← load_line st line; load_lines st' rest
  end.

(** ** The steps of the loop body *)

(** The two date filters: [true] when the row is passed over. The date is
    parsed only when a bound is given. *)
Definition date_filtered (startdate enddate : option Calendar.date) (date : string) : res bool :=
  early ← match startdate with
          | None => mret false
          | Some sd => d ← parse_date date; mret (date_lt d sd)
          end;
  if (early : bool) then mret true
  else match enddate with
       | None => mret false
       | Some ed => d ← parse_date date; mret (date_lt ed d)
       end.

(** [enddate==None or enddate.month >= 2]: whether the schedule page is
    fetched and read. *)
Definition uses_schedule (enddate : option Calendar.date) : bool :=
  match enddate with
  | None => true
  | Some ed => 2 <=? month ed
  end.

(** [soup2.find("td",{"csk":date}).find_parent("tr").find(...).string]:
    without a cell for the date, [find] gives [None] and the next
    attribute access raises. *)
Definition schedule_type (schedule : list SchedRow) (date : string)
  : res (option string) :=
  match List.find (fun r => String.eqb (csk r) date) schedule with
  | Some r => Ok (game_type r)
  | None => Raise AttributeError
  end.

Definition get_gtype (enddate : option Calendar.date) (schedule : list SchedRow)
    (date : string) : res (option string) :=
  gtype ← (if uses_schedule enddate then schedule_type schedule date
           else mret (Some "REG"));
  let gtype := if bool_decide (gtype = Some "REG") then Some "RG" else gtype in
  let gtype := if bool_decide (gtype = Some "CTOURN") then Some "CT" else gtype in
  mret gtype.

(** The location cell. *)
Definition normalize_loc (loc : option string) : res string :=
  match loc with
  | None => Ok "H"
  | Some l =>
      if String.eqb l "@" then Ok "A"
      else if String.eqb l "N" then Ok "N"
      else Raise (Exception l)
  end.

(** The number of overtimes, from the [small] element of the result. *)
Definition get_numot (small : option string) : res Z :=
  match small with
  | None => mret 0
  | Some s =>
      part ← list_index (split_on "(" s) 1;
      word ← list_index (split_ws part) 0;
      int_of_str word
  end.

Definition stats : list string :=
  ["pts"; "fg"; "fga"; "fg3"; "fg3a"; "ft"; "fta"; "orb"; "trb"; "ast"; "stl"; "blk";
   "tov"; "pf"].

(** [getint = lambda x: (0 if x is None else int(x))] *)
Definition getint (x : option string) : res Z :=
  match x with
  | None => mret 0
  | Some s => int_of_str s
  end.

(** [for stat in stats], filling [statdict] and [opp_statdict]. *)
Fixpoint read_stats (tr : TR) (names : list string)
    (statdict opp_statdict : gmap string Z) : res (gmap string Z * gmap string Z) :=
  match names with
  | [] => mret (statdict, opp_statdict)
  | stat :: rest =>
      c ← cell_string tr stat;
      v ← getint c;
      oc ← cell_string tr ("opp_" +:+ stat);
      ov ← getint oc;
      read_stats tr rest (<[stat := v]> statdict) (<[stat := ov]> opp_statdict)
  end.

(** The choice of the winner, with the location turned to the winner's
    side: [(wd, ld, wteam, lteam, loc)]. *)
Definition orient (team opp loc : string) (statdict opp_statdict : gmap string Z)
  : res (gmap string Z * gmap string Z * string * string * string) :=
  pts ← getitem statdict "pts";
  opp_pts ← getitem opp_statdict "pts";
  if opp_pts <? pts then mret (statdict, opp_statdict, team, opp, loc)
  else mret (opp_statdict, statdict, opp, team,
             if String.eqb loc "H" then "A"
             else if String.eqb loc "A" then "H" else loc).

(** One game, as written on one line of the file. [WStats] and [LStats]
    are the thirteen columns [FGM .. PF] of each side. *)
Record GameRecord : Type := {
  Season : Z;
  DayNum : string;
  Type_ : option string;
  WTeamID : string;
  WScore : Z;
  LTeamID : string;
  LScore : Z;
  WLoc : string;
  NumOT : Z;
  WStats : list Z;
  LStats : list Z
}.

(** The thirteen values of one side, in the order of the line. *)
Definition side_stats (d : gmap string Z) : res (list Z) :=
  fg ← getitem d "fg"; fga ← getitem d "fga"; fg3 ← getitem d "fg3";
  fg3a ← getitem d "fg3a"; ft ← getitem d "ft"; fta ← getitem d "fta";
  orb ← getitem d "orb"; trb ← getitem d "trb"; orb' ← getitem d "orb";
  ast ← getitem d "ast"; tov ← getitem d "tov"; stl ← getitem d "stl";
  blk ← getitem d "blk"; pf ← getitem d "pf";
  mret [fg; fga; fg3; fg3a; ft; fta; orb; trb - orb'; ast; tov; stl; blk; pf].

Definition make_record (season : Z) (date : string) (gtype : option string)
    (wteam lteam loc : string) (numot : Z) (wd ld : gmap string Z) : res GameRecord :=
  wpts ← getitem wd "pts";
  lpts ← getitem ld "pts";
  ws ← side_stats wd;
  ls ← side_stats ld;
  mret {| Season := season; DayNum := date; Type_ := gtype; WTeamID := wteam;
          WScore := wpts; LTeamID := lteam; LScore := lpts; WLoc := loc;
          NumOT := numot; WStats := ws; LStats := ls |}.

(** [str(x)] for a game type. *)
Definition str_of_gtype (g : option string) : string :=
  match g with
  | Some s => s
  | None => "None"
  end.

(** The 35 fields of a record, joined by commas, and the line feed. *)
Definition format_row (r : GameRecord) : string :=
  String.concat ","
    ([str_of_int (Season r); DayNum r; str_of_gtype (Type_ r); WTeamID r;
      str_of_int (WScore r); LTeamID r; str_of_int (LScore r); WLoc r;
      str_of_int (NumOT r)]
     ++ (str_of_int <$> WStats r) ++ (str_of_int <$> LStats r))%list
  +:+ LF.

(** ** The loop body *)

(** What became of one [tr]: passed over by a [continue] before the
    duplicate check, found to be a duplicate, or written as a new row. *)
Inductive outcome : Type :=
| Skipped
| Duplicate
| Emitted (r : GameRecord).

(** The condition of the duplicate check, in a state where the bucket of
    [date] has been declared. *)
Definition is_duplicate (st : State) (date gid datem1day gidm1day : string) : res bool :=
  seen ← getitem (gids st) date;
  mret (bool_decide (gid ∈ seen)
        || match gids st !! datem1day with
           | Some seenm1 => bool_decide (gidm1day ∈ seenm1)
           | None => false
           end).

(** From the reading of the game type to the new row: the part of the body
    after the duplicate check. *)
Definition extract_record (season : Z) (team opp date : string)
    (enddate : option Calendar.date) (schedule : list SchedRow) (tr : TR) : res GameRecord :=
  gtype ← get_gtype enddate schedule date;
  rawloc ← cell_string tr "game_location";
  loc ← normalize_loc rawloc;
  numot ← get_numot (game_result_small tr);
  '(statdict, opp_statdict) ← read_stats tr stats ∅ ∅;
  '(wd, ld, wteam, lteam, loc) ← orient team opp loc statdict opp_statdict;
  make_record season date gtype wteam lteam loc numot wd ld.

(** The body of [for tr in table.find_all("tr")]. *)
Definition process_tr (season : Z) (team : string) (startdate enddate : option Calendar.date)
    (schedule : list SchedRow) (st : State) (tr : TR) : res (State * outcome) :=
  match tr_id tr with
  | None => mret (st, Skipped)
  | Some _ =>
  match date_game_a tr with
  | None => mret (st, Skipped)
  | Some date =>
  filtered ← date_filtered startdate enddate date;
  if (filtered : bool) then mret (st, Skipped) else
  match opp_id_a tr with
  | None => mret (st, Skipped)
  | Some opp =>
  let gid := get_gid date team opp in
  d ← parse_date date;
  dm1 ← minus_one_day d;
  let datem1day := date_str dm1 in
  let gidm1day := get_gid datem1day team opp in
  let st := declare_bucket date st in
  dup ← is_duplicate st date gid datem1day gidm1day;
  if (dup : bool) then mret (st, Duplicate) else
  gids' ← bucket_append (gids st) date gid;
  let st := {| gids := gids'; rows := rows st |} in
  r ← extract_record season team opp date enddate schedule tr;
  rows' ← bucket_append (rows st) date (format_row r);
  mret ({| gids := gids st; rows := rows' |}, Emitted r)
  end end end.

(** The rows of one team's game log, in order. *)
Fixpoint tr_loop (season : Z) (team : string) (startdate enddate : option Calendar.date)
    (schedule : list SchedRow) (st : State) (trs : list TR)
  : res (State * list outcome) :=
  match trs with
  | [] => mret (st, [])
  | tr :: rest =>
      '(st', o) ← process_tr season team startdate enddate schedule st tr;
      '(st'', os) ← tr_loop season team startdate enddate schedule st' rest;
      mret (st'', o :: os)
  end.

(** What the site serves for one season: the list of schools, and per
    school the rows of the game-log table and of the schedule table. *)
Record Site : Type := {
  team_list : list string;
  gamelog : string -> list TR;
  schedule_of : string -> list SchedRow
}.

(** [for team in teams] *)
Fixpoint team_loop (site : Site) (season : Z) (startdate enddate : option Calendar.date)
    (st : State) (teams : list string) : res (State * list outcome) :=
  match teams with
  | [] => mret (st, [])
  | team :: rest =>
      '(st', os) ← tr_loop season team startdate enddate (schedule_of site team)
                     st (gamelog site team);
      '(st'', os') ← team_loop site season startdate enddate st' rest;
      mret (st'', (os ++ os')%list)
  end.

(** ** Writing the file *)

Definition HEADER : string :=
  "Season,DayNum,Type,WTeamID,WScore,LTeamID,LScore,WLoc,NumOT,WFGM,WFGA,WFGM3,WFGA3,WFTM,WFTA,WOR,WDR,WAst,WTO,WStl,WBlk,WPF,LFGM,LFGA,LFGM3,LFGA3,LFTM,LFTA,LOR,LDR,LAst,LTO,LStl,LBlk,LPF"
  +:+ LF.

(** [sorted(gids.keys())] *)
Definition sorted_dates (st : State) : list string :=
  merge_sort (fun a b => Is_true (String.leb a b)) (fst <$> map_to_list (gids st)).

Fixpoint rows_of (st : State) (dates : list string) : res (list string) :=
  match dates with
  | [] => mret []
  | date :: rest =>
      here ← getitem (rows st) date;
      after ← rows_of st rest;
      mret (here ++ after)%list
  end.

Definition file_lines (st : State) : res (list string) :=
  body ← rows_of st (sorted_dates st);
  mret (HEADER :: body).

(** ** [get_game_data] *)

(** [fout] is [None] when no file is named, and otherwise holds the lines
    of the file as it is before the call. The result is the returned dict
    [rows] and, when a file is named, the lines written to it; the list of
    outcomes records what was done with each [tr], in order. *)
Definition get_game_data (site : Site) (season : Z) (fout : option (list string))
    (overwrite : bool) (teams : option (list string)) (startdate enddate : option Calendar.date)
  : res (gmap string (list string) * option (list string) * list outcome) :=
  let teams := match teams with
               | None => team_list site
               | Some ts => ts
               end in
  st ← match fout with
       | Some old => if overwrite then mret empty_state
                     else load_lines empty_state (tail old)
       | None => mret empty_state
       end;
  '(st, os) ← team_loop site season startdate enddate st teams;
  written ← match fout with
            | Some _ => lines ← file_lines st; mret (Some lines)
            | None => mret None
            end;
  mret (rows st, written, os).

End Scrape.

(* ===================================================================== *)
(** * Reference definitions the properties are stated with               *)
(* ===================================================================== *)

Module Ref.

(** The value of ['HNA'['ANH'.find(w)]] by cases on [w]: the strings that
    occur in ['ANH'] at index 0, those that occur first at index 1, and
    the rest. *)
Definition flipped_code (w : string) : string :=
  if bool_decide (w ∈ [""; "A"; "AN"; "ANH"]) then "H"
  else if bool_decide (w ∈ ["N"; "NH"]) then "N"
  else "A".

(** *** The season aggregation, seen from one accumulator *)

Section Contributions.
Import Utils.

Definition box_add (a b : Box) : Box :=
  {| b_Score := b_Score a + b_Score b; b_FGM := b_FGM a + b_FGM b;
     b_FGA := b_FGA a + b_FGA b; b_FGM3 := b_FGM3 a + b_FGM3 b;
     b_FGA3 := b_FGA3 a + b_FGA3 b; b_FTM := b_FTM a + b_FTM b;
     b_FTA := b_FTA a + b_FTA b; b_OR := b_OR a + b_OR b;
     b_DR := b_DR a + b_DR b; b_Ast := b_Ast a + b_Ast b;
     b_TO := b_TO a + b_TO b; b_Stl := b_Stl a + b_Stl b;
     b_Blk := b_Blk a + b_Blk b; b_PF := b_PF a + b_PF b |}.

(** Field-wise sum of two accumulators: numbers are added, histories are
    joined, the first one first. *)
Definition acc_plus (a d : TeamSeasonStats) : TeamSeasonStats :=
  {| wins := wins a + wins d; losses := losses a + losses d;
     totOT := totOT a + totOT d;
     totPoss := (totPoss a + totPoss d)%float;
     opps := (opps a ++ opps d)%list;
     scores := (scores a ++ scores d)%list;
     HA := (HA a ++ HA d)%list;
     poss := (poss a ++ poss d)%list;
     nOT := (nOT a ++ nOT d)%list;
     T := box_add (T a) (T d);
     O := box_add (O a) (O d) |}.

(** What one game adds to the winner's and to the loser's accumulator. *)
Definition winner_entry (row : Game) : TeamSeasonStats :=
  {| wins := 1; losses := 0; totOT := NumOT row; totPoss := row_poss row;
     opps := [LTeamID row];
     scores := [(b_Score (Wbox row), b_Score (Lbox row))];
     HA := [WLoc row];
     poss := [row_poss row];
     nOT := [NumOT row];
     T := Wbox row;
     O := Lbox row |}.

Definition loser_entry (row : Game) : TeamSeasonStats :=
  {| wins := 0; losses := 1; totOT := NumOT row; totPoss := row_poss row;
     opps := [WTeamID row];
     scores := [(b_Score (Lbox row), b_Score (Wbox row))];
     HA := [flipped_code (WLoc row)];
     poss := [row_poss row];
     nOT := [NumOT row];
     T := Lbox row;
     O := Wbox row |}.

(** The entries that [row] adds to the accumulator of [(year, tid)]: the
    winner's entry first, as the loop body updates the winner first. *)
Definition contribs (year : Z) (tid : string) (row : Game) : list TeamSeasonStats :=
  ((if bool_decide (Season row = year /\ WTeamID row = tid)
    then [winner_entry row] else [])
   ++ (if bool_decide (Season row = year /\ LTeamID row = tid)
       then [loser_entry row] else []))%list.

(** Adding one entry to an accumulator that may not exist yet. *)
Definition add_entry (o : option TeamSeasonStats) (d : TeamSeasonStats)
  : option TeamSeasonStats :=
  Some (acc_plus (default init_stats o) d).

Definition step_team (row : Game) (year : Z) (tid : string)
    (o : option TeamSeasonStats) : option TeamSeasonStats :=
  fold_left add_entry (contribs year tid row) o.

(** The effect of one pass of the loop over [STATNAMES] on the accumulator
    of [(y, t)], and of the fourteen passes. *)
Definition acc_statname (row : Game) (y : Z) (t : string) (sn : StatName)
    (a : TeamSeasonStats) : TeamSeasonStats :=
  let a := if bool_decide (Season row = y /\ WTeamID row = t)
           then add_O sn (box_get sn (Lbox row)) (add_T sn (box_get sn (Wbox row)) a)
           else a in
  if bool_decide (Season row = y /\ LTeamID row = t)
  then add_O sn (box_get sn (Wbox row)) (add_T sn (box_get sn (Lbox row)) a)
  else a.

Definition add_boxes (bt bo : Box) (a : TeamSeasonStats) : TeamSeasonStats :=
  {| wins := wins a; losses := losses a; totOT := totOT a; totPoss := totPoss a;
     opps := opps a; scores := scores a; HA := HA a; poss := poss a; nOT := nOT a;
     T := box_add (T a) bt; O := box_add (O a) bo |}.

(** The five histories have as many entries as games were played. *)
Definition history_lengths_ok (a : TeamSeasonStats) : Prop :=
  Z.of_nat (length (opps a)) = wins a + losses a
  /\ Z.of_nat (length (scores a)) = wins a + losses a
  /\ Z.of_nat (length (HA a)) = wins a + losses a
  /\ Z.of_nat (length (poss a)) = wins a + losses a
  /\ Z.of_nat (length (nOT a)) = wins a + losses a.

(** Two accumulators with the same integer fields and the same histories
    up to the order of their entries. [totPoss] is left out. *)
Definition same_totals (a b : TeamSeasonStats) : Prop :=
  wins a = wins b /\ losses a = losses b /\ totOT a = totOT b
  /\ T a = T b /\ O a = O b
  /\ opps a ≡ₚ opps b /\ scores a ≡ₚ scores b /\ HA a ≡ₚ HA b
  /\ poss a ≡ₚ poss b /\ nOT a ≡ₚ nOT b.

Definition same_totals_opt (o1 o2 : option TeamSeasonStats) : Prop :=
  match o1, o2 with
  | Some a, Some b => same_totals a b
  | None, None => True
  | _, _ => False
  end.

(** [totPoss] is the sum of the [poss] history, added from the left in
    binary64. *)
Definition totPoss_is_left_sum (a : TeamSeasonStats) : Prop :=
  totPoss a = fold_left PrimFloat.add (poss a) 0%float.

End Contributions.

(** *** The advanced stats, cell by cell *)

Section Cells.
Import Utils.

(** The cell of column [col] in row [i] of a frame, for an [int64] column
    and for a [float64] column. *)
Definition int_cell (df : DataFrame) (col : string) (i : nat) : option Z :=
  match df !! col with
  | Some (Int64 cells) => cells !! i
  | _ => None
  end.
Definition float_cell (df : DataFrame) (col : string) (i : nat) : option float :=
  match df !! col with
  | Some (Float64 cells) => cells !! i
  | _ => None
  end.

(** The integers that an [int64] cell can hold. *)
Definition in_int64 (z : Z) : Prop := - 2 ^ 63 <= z < 2 ^ 63.

(** The columns of the aggregated table that [add_advanced_stats] reads. *)
Definition input_columns : list string :=
  ["TFGA"; "TFTA"; "TOR"; "TTO"; "TScore"; "TAst"; "TFGM"; "TFGM3"; "TDR";
   "OFGA"; "OFTA"; "OOR"; "OTO"; "OScore"; "OAst"; "OFGM"; "OFGM3"; "ODR";
   "wins"; "losses"; "totOT"].

End Cells.

(** *** The scraper's state *)

Section ScraperView.
Import Scrape.

(** The IDs seen so far for a date: the bucket of the date, empty when the
    date has no bucket. *)
Definition seen (st : State) (date : string) : list string :=
  default [] (gids st !! date).

(** [later st st']: the state [st'] is reached from [st] by running the
    loop body on further rows, of any page, without an error. *)
Inductive later : State -> State -> Prop :=
| later_refl (st : State) : later st st
| later_step (st st1 st2 : State) (season : Z) (team : string)
    (startdate enddate : option Calendar.date) (schedule : list SchedRow)
    (tr : TR) (o : outcome) :
    later st st1 ->
    process_tr season team startdate enddate schedule st1 tr = Ok (st2, o) ->
    later st st2.

(** The game type of the schedule page, with the two renamings. *)
Definition normalized_type (g : option string) : option string :=
  if bool_decide (g = Some "REG") then Some "RG"
  else if bool_decide (g = Some "CTOURN") then Some "CT"
  else g.

End ScraperView.

(** *** Dates as strings *)

Section DateStrings.
Import Calendar.



End DateStrings.

(** ** Sums and selections over the games of a team *)

Section GamesOfTeam.
Import Utils.

(** The sum of a list of integers. *)
Definition sumZ (l : list Z) : Z := foldr Z.add 0 l.

(** The games of [df] that [tid] won, and those it lost, in season [year]. *)
Definition games_won (year : Z) (tid : string) (df : list Game) : list Game :=
  filter (fun row => Season row = year /\ WTeamID row = tid) df.
Definition games_lost (year : Z) (tid : string) (df : list Game) : list Game :=
  filter (fun row => Season row = year /\ LTeamID row = tid) df.

(** What one game adds to the histories of [(year, tid)]: as the winner
    first, then as the loser. *)
Definition opps_of (year : Z) (tid : string) (row : Game) : list string :=
  ((if bool_decide (Season row = year /\ WTeamID row = tid) then [LTeamID row] else [])
   ++ (if bool_decide (Season row = year /\ LTeamID row = tid) then [WTeamID row] else []))%list.
Definition scores_of (year : Z) (tid : string) (row : Game) : list (Z * Z) :=
  ((if bool_decide (Season row = year /\ WTeamID row = tid)
    then [(b_Score (Wbox row), b_Score (Lbox row))] else [])
   ++ (if bool_decide (Season row = year /\ LTeamID row = tid)
       then [(b_Score (Lbox row), b_Score (Wbox row))] else []))%list.
Definition HA_of (year : Z) (tid : string) (row : Game) : list string :=
  ((if bool_decide (Season row = year /\ WTeamID row = tid) then [WLoc row] else [])
   ++ (if bool_decide (Season row = year /\ LTeamID row = tid)
       then [flipped_code (WLoc row)] else []))%list.
Definition twice_if_both {A} (year : Z) (tid : string) (row : Game) (x : A) : list A :=
  ((if bool_decide (Season row = year /\ WTeamID row = tid) then [x] else [])
   ++ (if bool_decide (Season row = year /\ LTeamID row = tid) then [x] else []))%list.

End GamesOfTeam.

(** *** The columns that [add_advanced_stats] reads and writes *)

Section AdvancedColumns.
Import Utils.

(** The columns that [add_advanced_stats] writes: seven for each side and
    [rawpace]. *)
Definition side_columns (c : string) : list string :=
  String.append c <$> ["ftr"; "orbp"; "efgp"; "tovr"; "astr"; "eff"; "poss"].
Definition new_columns : list string :=
  ("rawpace" :: side_columns "O" ++ side_columns "T")%list.

(** The columns that the pass for side [c] reads. *)
Definition side_inputs (c : string) : list string :=
  (String.append c <$> ["FGA"; "FTA"; "OR"; "TO"; "Score"; "Ast"; "FGM"; "FGM3"])
  ++ [(if String.eqb c "O" then "T" else "O") +:+ "DR"].

(** A frame with the columns [kvs] written into it, the last of the list
    first. *)
Definition with_columns (kvs : list (string * Series)) (df : DataFrame) : DataFrame :=
  foldr (fun kv m => <[kv.1 := kv.2]> m) df kvs.

(** The seven columns of side [c], from the columns read. *)
Definition side_values (c : string) (fga fta orb tov score ast fgm fgm3 odr : Series)
  : list (string * Series) :=
  [ (c +:+ "ftr", s_div fta fga);
    (c +:+ "orbp", s_div orb (s_add orb odr));
    (c +:+ "efgp", s_div (s_add fgm (s_scale 0.5 fgm3)) fga);
    (c +:+ "tovr", s_div tov (s_add (s_add fga (s_scale 0.44 fta)) tov));
    (c +:+ "astr", s_div ast (s_add (s_add (s_add fga (s_scale 0.44 fta)) ast) tov));
    (c +:+ "eff", s_div (s_scale 100 score)
                        (s_add (s_sub (s_add fga (s_scale 0.44 fta)) orb) tov));
    (c +:+ "poss", s_add (s_sub (s_add fga (s_scale 0.44 fta)) orb) tov) ].

(** The column [name] of a frame, empty when the frame has none. *)
Definition col (df : DataFrame) (name : string) : Series :=
  default (Float64 []) (df !! name).

Definition side_values_of (c : string) (df : DataFrame) : list (string * Series) :=
  side_values c (col df (c +:+ "FGA")) (col df (c +:+ "FTA")) (col df (c +:+ "OR"))
    (col df (c +:+ "TO")) (col df (c +:+ "Score")) (col df (c +:+ "Ast"))
    (col df (c +:+ "FGM")) (col df (c +:+ "FGM3"))
    (col df ((if String.eqb c "O" then "T" else "O") +:+ "DR")).

(** The fifteen columns written, from the 21 columns read. *)
Definition advanced_values (df : DataFrame) : list (string * Series) :=
  let tposs := s_add (s_sub (s_add (col df "TFGA") (s_scale 0.44 (col df "TFTA")))
                            (col df "TOR")) (col df "TTO") in
  let oposs := s_add (s_sub (s_add (col df "OFGA") (s_scale 0.44 (col df "OFTA")))
                            (col df "OOR")) (col df "OTO") in
  (("rawpace",
    s_div (s_scale 0.5 (s_add tposs oposs))
          (s_add (s_add (col df "wins") (col df "losses")) (s_scale 0.125 (col df "totOT"))))
   :: side_values_of "O" df ++ side_values_of "T" df)%list.

End AdvancedColumns.

End Ref.

(* ===================================================================== *)
(** * Concrete inputs                                                      *)
(* ===================================================================== *)

(** Games for the season aggregation. *)

Module Examples.
Import Utils.

(** A box score with the given points, attempts and rebounds. *)
Definition box (score fga fta orb tov : Z) : Box :=
  {| b_Score := score; b_FGM := 25; b_FGA := fga; b_FGM3 := 7; b_FGA3 := 20;
     b_FTM := 13; b_FTA := fta; b_OR := orb; b_DR := 24; b_Ast := 14;
     b_TO := tov; b_Stl := 6; b_Blk := 3; b_PF := 17 |}.

(** Three games of one season that [purdue] plays: a home win, an away
    loss after one overtime, a win on neutral ground. *)
Definition game1 : Game :=
  {| Season := 2020; Date := "2020-01-15"; gid := "2020-01-15_indiana_purdue";
     WTeamID := "purdue"; LTeamID := "indiana";
     Wbox := box 70 60 20 10 12; Lbox := box 65 58 18 9 13;
     WLoc := "H"; NumOT := 0; row_poss := 70.8;
     Wrank := Some 12; Lrank := None |}.

Definition game2 : Game :=
  {| Season := 2020; Date := "2020-01-19"; gid := "2020-01-19_iowa_purdue";
     WTeamID := "iowa"; LTeamID := "purdue";
     Wbox := box 81 55 17 8 11; Lbox := box 77 57 21 7 10;
     WLoc := "H"; NumOT := 1; row_poss := 65.48;
     Wrank := None; Lrank := Some 12 |}.

Definition game3 : Game :=
  {| Season := 2020; Date := "2020-01-23"; gid := "2020-01-23_purdue_rutgers";
     WTeamID := "purdue"; LTeamID := "rutgers";
     Wbox := box 68 58 23 9 14; Lbox := box 59 62 15 11 13;
     WLoc := "N"; NumOT := 0; row_poss := 73.12;
     Wrank := Some 11; Lrank := None |}.

Definition games : list Game := [game1; game2; game3].
Definition games_reversed : list Game := [game3; game2; game1].

(** The aggregation of the three games, and the accumulator of [purdue]. *)
Definition season_stats : Stats :=
  match compute_season_stats games with
  | Ok stats => stats
  | Raise _ => ∅
  end.
Definition purdue_acc : TeamSeasonStats :=
  default init_stats (lookup_team 2020 "purdue" season_stats).

(** The same for the games in the opposite order. *)
Definition season_stats_reversed : Stats :=
  match compute_season_stats games_reversed with
  | Ok stats => stats
  | Raise _ => ∅
  end.
Definition purdue_acc_reversed : TeamSeasonStats :=
  default init_stats (lookup_team 2020 "purdue" season_stats_reversed).

End Examples.

(** Pages of the site, for the scraper. *)

Module Pages.
Import Scrape.

(** The cells of one game-log row: the location cell, the points of both
    sides, and every other stat cell with [7] for the team and [5] for the
    opponent. *)
Definition stat_cells (loc : option string) (pts opp_pts : string)
  : gmap string (option string) :=
  <["game_location" := loc]>
    (<["pts" := Some pts]>
       (<["opp_pts" := Some opp_pts]>
          (foldr (fun name m => <[name := Some "7"]> (<["opp_" +:+ name := Some "5"]> m))
             ∅ stats))).

(** The game of 2020-01-15, as it stands on purdue's page (a home win
    after two overtimes) and on indiana's page (an away loss). *)
Definition tr_purdue : TR :=
  {| tr_id := Some "sgl-basic.17"; date_game_a := Some "2020-01-15";
     opp_id_a := Some "indiana"; game_result_small := Some " (2 OT)";
     cells := stat_cells None "70" "65" |}.

Definition tr_indiana : TR :=
  {| tr_id := Some "sgl-basic.18"; date_game_a := Some "2020-01-15";
     opp_id_a := Some "purdue"; game_result_small := Some " (2 OT)";
     cells := stat_cells (Some "@") "65" "70" |}.

(** A row with a location cell that is none of the three codes. *)
Definition tr_bad_location : TR :=
  {| tr_id := Some "sgl-basic.19"; date_game_a := Some "2020-01-15";
     opp_id_a := Some "indiana"; game_result_small := None;
     cells := stat_cells (Some "H") "70" "65" |}.

(** A row for a date that the schedule page below does not have. *)
Definition tr_february : TR :=
  {| tr_id := Some "sgl-basic.22"; date_game_a := Some "2020-02-01";
     opp_id_a := Some "indiana"; game_result_small := None;
     cells := stat_cells None "70" "65" |}.

Definition schedule : list SchedRow :=
  [ {| csk := "2020-01-11"; game_type := Some "REG" |};
    {| csk := "2020-01-15"; game_type := Some "REG" |};
    {| csk := "2020-03-12"; game_type := Some "CTOURN" |} ].

Definition site : Site :=
  {| team_list := ["purdue"; "indiana"];
     gamelog := fun team => if String.eqb team "purdue" then [tr_purdue]
                            else [tr_indiana];
     schedule_of := fun _ => schedule |}.




Definition jan31 : Calendar.date :=
  {| Calendar.year := 2020; Calendar.month := 1; Calendar.day := 31 |}.

End Pages.

(** Tables for the training rows and the advanced stats. *)

Module Tables.
Import Utils.





(** A table of totals with two rows; the second team has no field-goal
    attempt recorded. *)
Definition totals : DataFrame :=
  list_to_map
    ((fun kv => (kv.1, Int64 kv.2)) <$>
     [("TFGA", [1800; 0]); ("TFTA", [600; 10]); ("TOR", [300; 2]); ("TTO", [380; 5]);
      ("TScore", [2250; 8]); ("TAst", [450; 0]); ("TFGM", [800; 0]); ("TFGM3", [240; 0]);
      ("TDR", [750; 6]);
      ("OFGA", [1750; 20]); ("OFTA", [550; 4]); ("OOR", [280; 3]); ("OTO", [400; 1]);
      ("OScore", [2100; 30]); ("OAst", [400; 6]); ("OFGM", [750; 12]); ("OFGM3", [200; 2]);
      ("ODR", [700; 9]);
      ("wins", [20; 0]); ("losses", [11; 1]); ("totOT", [2; 0])]).

(** The same table with one row, where the offensive rebounds of the team
    and the defensive rebounds of its opponents are [2^62] each. *)
Definition totals_huge : DataFrame :=
  <["TOR" := Int64 [2 ^ 62]]> (<["ODR" := Int64 [2 ^ 62]]>
    ((fun s => match s with
               | Int64 cells => Int64 (take 1 cells)
               | Float64 cells => Float64 (take 1 cells)
               end) <$> totals)).

(** The table [totals] after [add_advanced_stats]. *)
Definition totals_advanced : DataFrame :=
  match add_advanced_stats totals with
  | Ok df => df
  | Raise _ => ∅
  end.

Definition totals_huge_advanced : DataFrame :=
  match add_advanced_stats totals_huge with
  | Ok df => df
  | Raise _ => ∅
  end.

End Tables.

(* ===================================================================== *)
(** * Properties                                                           *)
(* ===================================================================== *)

(** ** General facts about [res] *)

Lemma bind_Ok {A B} (m : res A) (k : A -> res B) (b : B) :
  m ≫= k = Ok b -> exists a, m = Ok a /\ k a = Ok b.
Proof. destruct m as [a|e]; [eauto | discriminate]. Qed.

Lemma bind_Raise {A B} (m : res A) (k : A -> res B) (e : exn) :
  m ≫= k = Raise e -> m = Raise e \/ exists a, m = Ok a /\ k a = Raise e.
Proof.
  destruct m as [a|e']; intros H.
  - right. exists a. split; [reflexivity|exact H].
  - left. cbn in H. by injection H as ->.
Qed.

Lemma getitem_Raise {V} (d : gmap string V) k e :
  getitem d k = Raise e -> d !! k = None /\ e = KeyError k.
Proof. unfold getitem. destruct (d !! k); [discriminate|]. intros [= <-]. done. Qed.

(** A computation that returns, returns its value. *)
Lemma is_ok_value {A} (m : res A) (d : A) :
  is_ok m = true -> m = Ok (match m with Ok a => a | Raise _ => d end).
Proof. destruct m; [reflexivity|discriminate]. Qed.

Lemma is_Some_value {A} (m : option A) (d : A) :
  has_value m = true -> m = Some (default d m).
Proof. destruct m; [reflexivity|discriminate]. Qed.


(** ** The primitives on some inputs *)

(** [int] on blanks, signs and separators. *)
Lemma int_of_str_examples :
  int_of_str " 12 " = Ok 12 /\ int_of_str "-7" = Ok (-7) /\ int_of_str "+7" = Ok 7
  /\ int_of_str "007" = Ok 7 /\ int_of_str "1_0" = Ok 10
  /\ int_of_str (String (ascii_of_nat 160) "5") = Ok 5
  /\ int_of_str "1__0" = Raise ValueError /\ int_of_str "_1" = Raise ValueError
  /\ int_of_str "1_" = Raise ValueError /\ int_of_str "" = Raise ValueError
  /\ int_of_str "1 0" = Raise ValueError /\ int_of_str "- 1" = Raise ValueError
  /\ int_of_str "1.0" = Raise ValueError.
Proof. repeat split; vm_compute; reflexivity. Qed.

(** [split] without an argument cuts at the no-break space as at a blank. *)
Lemma split_ws_examples :
  split_ws " 2 OT) " = ["2"; "OT)"]
  /\ split_ws ("2" +:+ String (ascii_of_nat 160) "OT)") = ["2"; "OT)"]
  /\ split_ws "" = [].
Proof. repeat split; vm_compute; reflexivity. Qed.

(** The conversion of an integer to [float] is exact where the integer is
    a [float], and rounds to the nearest, ties to even, elsewhere. *)
Lemma float_of_Z_examples :
  Utils.float_of_Z 0 = 0%float
  /\ Utils.float_of_Z (-3) = (-3)%float
  /\ Utils.float_of_Z (- 2 ^ 63) = (-9223372036854775808)%float
  /\ Utils.float_of_Z (2 ^ 53 + 1) = 9007199254740992%float
  /\ Utils.float_of_Z (2 ^ 53 + 3) = 9007199254740996%float
  /\ Utils.float_of_int (10 ^ 400) = Raise OverflowError
  /\ Utils.wrap64 (2 ^ 62 + 2 ^ 62) = - 2 ^ 63.
Proof. repeat split; vm_compute; reflexivity. Qed.

(** ** Upsets *)

Section Upset.
Import Utils.

Lemma is_upset_asym (r1 r2 : Z) : is_upset r1 r2 = true -> is_upset r2 r1 = false.
Proof. unfold is_upset. intros H. lia. Qed.

(** C10: [is_upset r1 r2] and [is_upset r2 r1] are never both true, so
    the branches of [get_df_upset_prob] that return [prob] and [1-prob]
    exclude each other, and the function returns [prob] (first test
    true), [1-prob] (only the second true) or [0.0] (neither). *)
Theorem upset_branches_exclusive :
  (forall r1 r2 : Z, is_upset r1 r2 && is_upset r2 r1 = false)
  /\ forall row : PredRow,
      (is_upset (rank1 row) (rank2 row) = true
       /\ is_upset (rank2 row) (rank1 row) = false
       /\ get_df_upset_prob row = prob row)
      \/ (is_upset (rank1 row) (rank2 row) = false
          /\ is_upset (rank2 row) (rank1 row) = true
          /\ get_df_upset_prob row = (1 - prob row)%float)
      \/ (is_upset (rank1 row) (rank2 row) = false
          /\ is_upset (rank2 row) (rank1 row) = false
          /\ get_df_upset_prob row = 0%float).
Proof.
  split.
  - intros r1 r2. destruct (is_upset r1 r2) eqn:E; [|reflexivity].
    simpl. now apply is_upset_asym.
  - intros row. unfold get_df_upset_prob.
    destruct (is_upset (rank1 row) (rank2 row)) eqn:E1.
    + left. auto using is_upset_asym.
    + destruct (is_upset (rank2 row) (rank1 row)) eqn:E2; auto.
Qed.

End Upset.

(** ** The loser's location *)

Section LoserHA.
Import Utils Ref.

Ltac ascii_case a c := destruct (ascii_dec a c) as [->| ?].

Ltac not_member :=
  let Hin := fresh "Hin" in
  intros Hin;
  repeat (apply elem_of_cons in Hin as [Hin|Hin]; [congruence|]);
  now apply elem_of_nil in Hin.

Ltac decide_mem :=
  repeat match goal with
  | |- context [bool_decide (?x ∈ ?l)] =>
      first [ rewrite (bool_decide_eq_true_2 (x ∈ l))
                by (rewrite ?elem_of_cons; auto 8)
            | rewrite (bool_decide_eq_false_2 (x ∈ l)) by not_member ]
  end.

Lemma loser_HA_cases (w : string) : loser_HA w = Ok (flipped_code w).
Proof.
  unfold loser_HA, str_find, flipped_code.
  destruct w as [|a w]; [reflexivity|].
  cbn [find_from String.prefix].
  ascii_case a "A"%char.
  - destruct w as [|b w]; [reflexivity|].
    ascii_case b "N"%char.
    + destruct w as [|c w]; [reflexivity|].
      ascii_case c "H"%char.
      * destruct w as [|d w]; [reflexivity|].
        cbn. decide_mem. reflexivity.
      * cbn. destruct (ascii_dec "A" "N"); [discriminate|].
        destruct (ascii_dec "A" "H"); [discriminate|].
        decide_mem. reflexivity.
    + cbn. destruct (ascii_dec "A" "N"); [discriminate|].
      destruct (ascii_dec "A" "H"); [discriminate|].
      decide_mem. reflexivity.
  - ascii_case a "N"%char.
    + destruct w as [|b w]; [reflexivity|].
      ascii_case b "H"%char.
      * destruct w as [|c w]; [reflexivity|].
        cbn. destruct (ascii_dec "N" "H"); [discriminate|].
        decide_mem. reflexivity.
      * cbn. destruct (ascii_dec "N" "H"); [discriminate|].
        decide_mem. reflexivity.
    + ascii_case a "H"%char.
      * destruct w as [|b w]; [reflexivity|].
        cbn. decide_mem. reflexivity.
      * cbn. decide_mem. reflexivity.
Qed.

End LoserHA.

(** ** The season aggregation *)

Section Season.
Import Utils Ref.
Implicit Types (stats : Stats) (row : Game) (a b d : TeamSeasonStats)
  (o : option TeamSeasonStats).

(** *** Lookups after the updates of the loop body *)

Lemma lookup_update_team y t f stats y' t' :
  lookup_team y' t' (update_team y t f stats)
  = (if bool_decide (y = y' /\ t = t') then f else id) <$> lookup_team y' t' stats.
Proof.
  unfold lookup_team, update_team.
  destruct (decide (y = y')) as [<-|Hy].
  - rewrite lookup_alter_eq. destruct (stats !! y) as [teams|]; simpl; [|done].
    destruct (decide (t = t')) as [<-|Ht].
    + rewrite bool_decide_eq_true_2 by done. by rewrite lookup_alter_eq.
    + rewrite bool_decide_eq_false_2 by (intros [? ?]; congruence).
      rewrite lookup_alter_ne by done. by destruct (teams !! t').
  - rewrite lookup_alter_ne by done.
    rewrite bool_decide_eq_false_2 by (intros [? ?]; congruence).
    by destruct (stats !! y' ≫= _).
Qed.

Lemma lookup_ensure_year y stats y' t' :
  lookup_team y' t' (ensure_year y stats) = lookup_team y' t' stats.
Proof.
  unfold ensure_year, lookup_team.
  destruct (stats !! y) eqn:E; [done|].
  destruct (decide (y = y')) as [<-|Hy].
  - rewrite lookup_insert_eq, E. done.
  - by rewrite lookup_insert_ne.
Qed.

Lemma ensure_year_present y stats : is_Some (ensure_year y stats !! y).
Proof.
  unfold ensure_year. destruct (stats !! y) eqn:E.
  - rewrite E. eauto.
  - rewrite lookup_insert_eq. eauto.
Qed.

Lemma lookup_ensure_team y t stats y' t' :
  is_Some (stats !! y) ->
  lookup_team y' t' (ensure_team y t stats)
  = (if bool_decide (y = y' /\ t = t')
     then fun o => Some (default init_stats o) else id) (lookup_team y' t' stats).
Proof.
  intros [teams Hteams]. unfold ensure_team.
  destruct (lookup_team y t stats) as [a|] eqn:E.
  - case_bool_decide as Hk; [|done]. destruct Hk as [<- <-]. by rewrite E.
  - simpl. unfold lookup_team in *. rewrite Hteams in E. simpl in E.
    destruct (decide (y = y')) as [<-|Hy].
    + rewrite lookup_alter_eq, Hteams. simpl.
      destruct (decide (t = t')) as [<-|Ht].
      * rewrite bool_decide_eq_true_2 by done. by rewrite lookup_insert_eq, E.
      * rewrite bool_decide_eq_false_2 by (intros [? ?]; congruence).
        by rewrite lookup_insert_ne.
    + rewrite lookup_alter_ne by done.
      by rewrite bool_decide_eq_false_2 by (intros [? ?]; congruence).
Qed.

Lemma ensure_team_present y t stats y0 :
  is_Some (stats !! y0) -> is_Some (ensure_team y t stats !! y0).
Proof.
  intros Hs. unfold ensure_team. destruct (lookup_team y t stats); [done|].
  destruct (decide (y = y0)) as [<-|Hy].
  - rewrite lookup_alter_eq. destruct Hs as [x ->]. simpl. eauto.
  - by rewrite lookup_alter_ne.
Qed.

Lemma lookup_add_statname row stats sn y t :
  lookup_team y t (add_statname row stats sn)
  = acc_statname row y t sn <$> lookup_team y t stats.
Proof.
  unfold add_statname, acc_statname.
  rewrite !lookup_update_team.
  destruct (lookup_team y t stats); [simpl|reflexivity].
  repeat case_bool_decide; reflexivity.
Qed.

Lemma lookup_fold_statname row sns stats y t :
  lookup_team y t (fold_left (add_statname row) sns stats)
  = (fun a => fold_left (fun a sn => acc_statname row y t sn a) sns a)
      <$> lookup_team y t stats.
Proof.
  revert stats. induction sns as [|sn sns IH]; intros stats; simpl.
  - by destruct (lookup_team y t stats).
  - rewrite IH, lookup_add_statname. by destruct (lookup_team y t stats).
Qed.

Lemma fold_statnames_boxes (bt bo : Box) a :
  fold_left (fun a sn => add_O sn (box_get sn bo) (add_T sn (box_get sn bt) a))
    STATNAMES a
  = add_boxes bt bo a.
Proof. destruct a as [? ? ? ? ? ? ? ? ? [] []]. reflexivity. Qed.

Lemma fold_acc_statname row y t a :
  fold_left (fun a sn => acc_statname row y t sn a) STATNAMES a
  = (if bool_decide (Season row = y /\ LTeamID row = t)
     then add_boxes (Lbox row) (Wbox row) else id)
      ((if bool_decide (Season row = y /\ WTeamID row = t)
        then add_boxes (Wbox row) (Lbox row) else id) a).
Proof.
  unfold acc_statname.
  do 2 case_bool_decide.
  - destruct a as [? ? ? ? ? ? ? ? ? [] []]. reflexivity.
  - apply fold_statnames_boxes.
  - apply fold_statnames_boxes.
  - destruct a as [? ? ? ? ? ? ? ? ? [] []]. reflexivity.
Qed.

(** *** The loop body and the loop, one accumulator at a time *)

Lemma season_step_lookup row stats :
  exists stats',
    season_step stats row = Ok stats'
    /\ forall y t, lookup_team y t stats' = step_team row y t (lookup_team y t stats).
Proof.
  unfold season_step. rewrite loser_HA_cases.
  eexists. split; [reflexivity|].
  intros y t.
  rewrite !lookup_update_team, lookup_fold_statname.
  cbn [fold_left].
  rewrite !lookup_ensure_team, !lookup_ensure_year
    by auto using ensure_team_present, ensure_year_present.
  unfold step_team, contribs.
  generalize (lookup_team y t stats) as o. intros o.
  pose proof (fold_acc_statname row y t) as Hfold.
  repeat case_bool_decide; destruct_and?; subst;
    try (exfalso;
         first [congruence
               | match goal with
                 | H : ¬ (_ /\ _) |- _ => apply H; split; congruence
                 end]);
    destruct o as [a|]; cbn -[fold_left STATNAMES]; rewrite ?Hfold;
    try reflexivity;
    destruct a as [? ? ? ? ? ? ? ? ? [] []];
    unfold add_entry, acc_plus, box_add; cbn; rewrite ?Z.add_0_r; try reflexivity.
Qed.

Lemma season_loop_lookup df stats :
  exists stats',
    season_loop stats df = Ok stats'
    /\ forall y t,
        lookup_team y t stats'
        = fold_left add_entry (flat_map (contribs y t) df) (lookup_team y t stats).
Proof.
  revert stats. induction df as [|row df IH]; intros stats; simpl.
  - eexists. split; [reflexivity|]. done.
  - destruct (season_step_lookup row stats) as (stats1 & Hstep & Hlook).
    rewrite Hstep. simpl.
    destruct (IH stats1) as (stats2 & Hloop & Hlook2).
    exists stats2. split; [exact Hloop|].
    intros y t. rewrite Hlook2, Hlook, fold_left_app. reflexivity.
Qed.

Lemma lookup_team_empty y t : lookup_team y t (∅ : Stats) = None.
Proof. unfold lookup_team. by rewrite lookup_empty. Qed.

Lemma compute_season_stats_lookup df :
  exists stats,
    compute_season_stats df = Ok stats
    /\ forall y t,
        lookup_team y t stats = fold_left add_entry (flat_map (contribs y t) df) None.
Proof.
  destruct (season_loop_lookup df ∅) as (stats & Hrun & Hlook).
  exists stats. split; [exact Hrun|].
  intros y t. by rewrite Hlook, lookup_team_empty.
Qed.


Lemma lookup_team_Some stats year tid acc :
  lookup_team year tid stats = Some acc
  <-> exists teams, stats !! year = Some teams /\ teams !! tid = Some acc.
Proof.
  unfold lookup_team. destruct (stats !! year) as [teams|]; simpl.
  - split; [eauto|]. intros (teams' & [= <-] & H). exact H.
  - split; [discriminate|]. intros (? & [=] & _).
Qed.

(** *** Invariants of a fold of entries *)

Lemma fold_add_entry_invariant (P Q : TeamSeasonStats -> Prop) entries o :
  P init_stats ->
  (forall a d, P a -> Q d -> P (acc_plus a d)) ->
  Forall Q entries ->
  (forall a, o = Some a -> P a) ->
  forall a, fold_left add_entry entries o = Some a -> P a.
Proof.
  intros Hinit Hplus Hall. revert o.
  induction Hall as [|d entries Hd _ IH]; intros o Ho a; simpl.
  - apply Ho.
  - apply IH. intros a' [= <-]. apply Hplus; [|exact Hd].
    destruct o as [a0|]; simpl; auto.
Qed.

Lemma contribs_Forall (Q : TeamSeasonStats -> Prop) y t df :
  (forall row, Q (winner_entry row)) ->
  (forall row, Q (loser_entry row)) ->
  Forall Q (flat_map (contribs y t) df).
Proof.
  intros Hw Hl. induction df as [|row df IH]; simpl; [constructor|].
  apply Forall_app. split; [|exact IH].
  unfold contribs. apply Forall_app.
  split; case_bool_decide; repeat constructor; auto.
Qed.

Lemma history_lengths_plus a d :
  history_lengths_ok a -> history_lengths_ok d -> history_lengths_ok (acc_plus a d).
Proof.
  unfold history_lengths_ok. intros Ha Hd. cbn.
  rewrite !length_app, !Nat2Z.inj_add. lia.
Qed.

Lemma totPoss_left_sum_plus a d :
  totPoss_is_left_sum a -> poss d = [totPoss d] -> totPoss_is_left_sum (acc_plus a d).
Proof.
  unfold totPoss_is_left_sum. intros Ha Hd. cbn.
  rewrite Hd, fold_left_app, <- Ha. reflexivity.
Qed.

(** *** Entries in another order *)

Lemma box_add_swap (x y z : Box) :
  box_add (box_add x y) z = box_add (box_add x z) y.
Proof. destruct x, y, z. unfold box_add. cbn. f_equal; lia. Qed.

Lemma same_totals_refl a : same_totals a a.
Proof. unfold same_totals. repeat split; reflexivity. Qed.

Lemma same_totals_trans a b c : same_totals a b -> same_totals b c -> same_totals a c.
Proof.
  unfold same_totals.
  intros (?&?&?&?&?&?&?&?&?&?) (?&?&?&?&?&?&?&?&?&?).
  repeat split; try congruence; etrans; eassumption.
Qed.

Lemma same_totals_plus a b d : same_totals a b -> same_totals (acc_plus a d) (acc_plus b d).
Proof.
  unfold same_totals. intros (?&?&?&HT&HO&?&?&?&?&?). cbn.
  rewrite HT, HO.
  repeat split; try congruence; by apply Permutation_app_tail.
Qed.

Lemma same_totals_swap a d1 d2 :
  same_totals (acc_plus (acc_plus a d1) d2) (acc_plus (acc_plus a d2) d1).
Proof.
  unfold same_totals. cbn.
  repeat split; try lia; try apply box_add_swap;
    rewrite <- !app_assoc; apply Permutation_app_head, Permutation_app_comm.
Qed.

Lemma same_totals_opt_refl o : same_totals_opt o o.
Proof. destruct o; simpl; auto using same_totals_refl. Qed.

Lemma same_totals_opt_trans o1 o2 o3 :
  same_totals_opt o1 o2 -> same_totals_opt o2 o3 -> same_totals_opt o1 o3.
Proof.
  destruct o1, o2, o3; simpl; try tauto. apply same_totals_trans.
Qed.

Lemma same_totals_default o1 o2 :
  same_totals_opt o1 o2 -> same_totals (default init_stats o1) (default init_stats o2).
Proof. destruct o1, o2; simpl; try tauto. intros _. apply same_totals_refl. Qed.

Lemma fold_add_entry_permutation l1 l2 :
  l1 ≡ₚ l2 ->
  forall o1 o2, same_totals_opt o1 o2 ->
    same_totals_opt (fold_left add_entry l1 o1) (fold_left add_entry l2 o2).
Proof.
  induction 1 as [|d l1 l2 _ IH|d1 d2 l|l1 l2 l3 _ IH1 _ IH2]; intros o1 o2 Ho.
  - exact Ho.
  - simpl. apply IH. simpl. by apply same_totals_plus, same_totals_default.
  - simpl.
    assert (Hgo : forall l o o', same_totals_opt o o' ->
              same_totals_opt (fold_left add_entry l o) (fold_left add_entry l o')).
    { clear. induction l as [|d l IH]; intros o o' Ho; simpl; [exact Ho|].
      apply IH. simpl. by apply same_totals_plus, same_totals_default. }
    apply Hgo. simpl.
    eapply same_totals_trans; [apply same_totals_swap|].
    by apply same_totals_plus, same_totals_plus, same_totals_default.
  - eapply same_totals_opt_trans; [apply IH1, Ho|]. apply IH2, same_totals_opt_refl.
Qed.

End Season.

Section SeasonClaims.
Import Utils Ref Examples.

(** C7: after every prefix of the input, [compute_season_stats] returns a
    mapping in which, for every season and team present, each of the five
    histories [opps], [scores], [HA], [poss], [nOT] has exactly
    [wins + losses] entries. *)
Theorem history_lengths_invariant (df : list Game) (n : nat) :
  exists stats : Stats,
    compute_season_stats (take n df) = Ok stats
    /\ forall (year : Z) (teams : gmap string TeamSeasonStats) (tid : string)
         (acc : TeamSeasonStats),
        stats !! year = Some teams ->
        teams !! tid = Some acc ->
        Z.of_nat (length (opps acc)) = wins acc + losses acc
        /\ Z.of_nat (length (scores acc)) = wins acc + losses acc
        /\ Z.of_nat (length (HA acc)) = wins acc + losses acc
        /\ Z.of_nat (length (poss acc)) = wins acc + losses acc
        /\ Z.of_nat (length (nOT acc)) = wins acc + losses acc.
Proof.
  destruct (compute_season_stats_lookup (take n df)) as (stats & Hrun & Hlook).
  exists stats. split; [exact Hrun|].
  intros year teams tid acc Hyear Hteam.
  assert (Hacc : lookup_team year tid stats = Some acc)
    by (apply lookup_team_Some; eauto).
  rewrite Hlook in Hacc.
  change (history_lengths_ok acc).
  clear Hyear Hteam. revert acc Hacc.
  apply (fold_add_entry_invariant history_lengths_ok history_lengths_ok).
  - unfold history_lengths_ok. cbn. lia.
  - apply history_lengths_plus.
  - apply contribs_Forall; intros row; unfold history_lengths_ok; cbn; lia.
  - discriminate.
Qed.

Lemma history_lengths_witness :
  exists (stats : Stats) (teams : gmap string TeamSeasonStats) (acc : TeamSeasonStats),
    compute_season_stats (take 2 games) = Ok stats
    /\ stats !! 2020 = Some teams
    /\ teams !! "purdue" = Some acc
    /\ Z.of_nat (length (opps acc)) = wins acc + losses acc
    /\ Z.of_nat (length (scores acc)) = wins acc + losses acc
    /\ Z.of_nat (length (HA acc)) = wins acc + losses acc
    /\ Z.of_nat (length (poss acc)) = wins acc + losses acc
    /\ Z.of_nat (length (nOT acc)) = wins acc + losses acc.
Proof.
  destruct (history_lengths_invariant games 2) as (stats & Hrun & Hinv).
  assert (Hs : has_value match compute_season_stats (take 2 games) with
                         | Ok s => lookup_team 2020 "purdue" s
                         | Raise _ => None
                         end = true)
    by (vm_compute; reflexivity).
  rewrite Hrun in Hs. unfold lookup_team in Hs.
  destruct (stats !! 2020) as [teams|] eqn:Hyear; [|discriminate Hs].
  simpl in Hs.
  destruct (teams !! "purdue") as [acc|] eqn:Hteam; [|discriminate Hs].
  exists stats, teams, acc. repeat split; auto; by eapply Hinv.
Defined.


(** C3, as the code has it: for a permutation of the input,
    [compute_season_stats] returns on both inputs, with the same seasons
    and teams, and for each of them the same [wins], [losses], [totOT] and
    the same 14 [T] and 14 [O] totals; the five histories hold the same
    entries in another order. [totPoss] is on both sides the binary64 sum
    of the [poss] history, added from the left in the order of the input. *)
Theorem season_totals_permutation (df1 df2 : list Game) :
  Permutation df1 df2 ->
  exists stats1 stats2 : Stats,
    compute_season_stats df1 = Ok stats1
    /\ compute_season_stats df2 = Ok stats2
    /\ forall (year : Z) (tid : string),
        match lookup_team year tid stats1, lookup_team year tid stats2 with
        | Some a, Some b =>
            wins a = wins b /\ losses a = losses b /\ totOT a = totOT b
            /\ T a = T b /\ O a = O b
            /\ Permutation (opps a) (opps b)
            /\ Permutation (scores a) (scores b)
            /\ Permutation (HA a) (HA b)
            /\ Permutation (poss a) (poss b)
            /\ Permutation (nOT a) (nOT b)
            /\ totPoss a = fold_left PrimFloat.add (poss a) 0%float
            /\ totPoss b = fold_left PrimFloat.add (poss b) 0%float
        | None, None => True
        | _, _ => False
        end.
Proof.
  intros Hperm.
  destruct (compute_season_stats_lookup df1) as (stats1 & Hrun1 & Hlook1).
  destruct (compute_season_stats_lookup df2) as (stats2 & Hrun2 & Hlook2).
  exists stats1, stats2. split; [exact Hrun1|]. split; [exact Hrun2|].
  intros year tid.
  assert (Hsame : same_totals_opt (lookup_team year tid stats1)
                    (lookup_team year tid stats2)).
  { rewrite Hlook1, Hlook2. apply fold_add_entry_permutation; [|exact I].
    apply Permutation_flat_map, Hperm. }
  assert (Hsum : forall df a,
            fold_left add_entry (flat_map (contribs year tid) df) None = Some a ->
            totPoss_is_left_sum a).
  { intros df. apply (fold_add_entry_invariant totPoss_is_left_sum
                        (fun d => poss d = [totPoss d])).
    - reflexivity.
    - apply totPoss_left_sum_plus.
    - apply contribs_Forall; reflexivity.
    - discriminate. }
  destruct (lookup_team year tid stats1) as [a|] eqn:Ha;
    destruct (lookup_team year tid stats2) as [b|] eqn:Hb; simpl in Hsame; try tauto.
  rewrite Hlook1 in Ha. rewrite Hlook2 in Hb.
  apply Hsum in Ha. apply Hsum in Hb.
  unfold same_totals in Hsame. unfold totPoss_is_left_sum in Ha, Hb. tauto.
Qed.

Lemma season_totals_permutation_witness :
  Permutation games games_reversed
  /\ exists (stats1 stats2 : Stats) (a b : TeamSeasonStats),
      compute_season_stats games = Ok stats1
      /\ compute_season_stats games_reversed = Ok stats2
      /\ lookup_team 2020 "purdue" stats1 = Some a
      /\ lookup_team 2020 "purdue" stats2 = Some b
      /\ wins a = wins b /\ losses a = losses b /\ totOT a = totOT b
      /\ T a = T b /\ O a = O b
      /\ Permutation (HA a) (HA b).
Proof.
  assert (Hperm : Permutation games games_reversed)
    by (change games_reversed with (rev games); apply Permutation_rev).
  split; [exact Hperm|].
  destruct (season_totals_permutation games games_reversed Hperm)
    as (stats1 & stats2 & Hrun1 & Hrun2 & Hall).
  specialize (Hall 2020 "purdue").
  destruct (lookup_team 2020 "purdue" stats1) as [a|] eqn:Ha;
    destruct (lookup_team 2020 "purdue" stats2) as [b|] eqn:Hb.
  - exists stats1, stats2, a, b. tauto.
  - destruct Hall.
  - destruct Hall.
  - exfalso.
    assert (Hs : has_value match compute_season_stats games with
                           | Ok s => lookup_team 2020 "purdue" s
                           | Raise _ => None
                           end = true)
      by (vm_compute; reflexivity).
    rewrite Hrun1, Ha in Hs. discriminate Hs.
Defined.

(** The sentence of C3 on [totPoss] fails: the three games of [games],
    read in the opposite order, give [purdue] another [totPoss]. *)
Lemma totPoss_depends_on_order :
  Permutation games games_reversed
  /\ exists (stats1 stats2 : Stats) (a b : TeamSeasonStats),
      compute_season_stats games = Ok stats1
      /\ compute_season_stats games_reversed = Ok stats2
      /\ lookup_team 2020 "purdue" stats1 = Some a
      /\ lookup_team 2020 "purdue" stats2 = Some b
      /\ totPoss a = 209.4%float
      /\ totPoss b = 209.40000000000003%float
      /\ totPoss a <> totPoss b.
Proof.
  split; [change games_reversed with (rev games); apply Permutation_rev|].
  exists season_stats, season_stats_reversed, purdue_acc, purdue_acc_reversed.
  split; [apply is_ok_value; vm_compute; reflexivity|].
  split; [apply is_ok_value; vm_compute; reflexivity|].
  split; [apply is_Some_value; vm_compute; reflexivity|].
  split; [apply is_Some_value; vm_compute; reflexivity|].
  split; [vm_compute; reflexivity|].
  split; [vm_compute; reflexivity|].
  intros Heq.
  apply (f_equal (fun x => PrimFloat.eqb x 209.4%float)) in Heq.
  vm_compute in Heq. discriminate.
Qed.

(** C9, as the code has it: the expression for the loser's location never
    raises on a string; it gives ["H"] for ["A"], ["N"] for ["N"] and ["A"]
    for ["H"], and further ["H"] for the strings [""], ["AN"], ["ANH"],
    ["N"] for ["NH"], and ["A"] for every string that does not occur in
    ["ANH"] (the cases of [flipped_code]). That value is the entry which
    the loop body appends to the loser's [HA] history. *)
Theorem loser_location_entry (row : Game) (stats : Stats) :
  loser_HA (WLoc row) = Ok (flipped_code (WLoc row))
  /\ exists (stats' : Stats) (acc : TeamSeasonStats),
      season_step stats row = Ok stats'
      /\ lookup_team (Season row) (LTeamID row) stats' = Some acc
      /\ HA acc
         = (HA (default init_stats (lookup_team (Season row) (LTeamID row) stats))
            ++ (if bool_decide (WTeamID row = LTeamID row) then [WLoc row] else [])
            ++ [flipped_code (WLoc row)])%list.
Proof.
  split; [apply loser_HA_cases|].
  destruct (season_step_lookup row stats) as (stats' & Hstep & Hlook).
  exists stats'. rewrite Hlook. unfold step_team, contribs.
  rewrite (bool_decide_eq_true_2 (Season row = Season row /\ LTeamID row = LTeamID row))
    by done.
  destruct (lookup_team (Season row) (LTeamID row) stats) as [a|];
    destruct (decide (WTeamID row = LTeamID row)) as [E|E].
  all: rewrite ?(bool_decide_eq_true_2 _ E), ?(bool_decide_eq_false_2 _ E).
  all: first [ rewrite (bool_decide_eq_true_2 (Season row = Season row
                                              /\ WTeamID row = LTeamID row)) by done
             | rewrite (bool_decide_eq_false_2 (Season row = Season row
                                               /\ WTeamID row = LTeamID row))
                 by (intros [_ ?]; done) ].
  all: eexists; split; [exact Hstep|]; split; [reflexivity|]; cbn.
  all: rewrite <- ?app_assoc; reflexivity.
Qed.

(** The sentence of C9 on the codes outside ['A', 'N', 'H'] fails for the
    empty string, which occurs in ['ANH'] at index 0. *)
Lemma loser_HA_empty_string :
  ~ (forall w : string, w ∉ ["A"; "N"; "H"] -> loser_HA w = Ok "A").
Proof.
  intros Hall.
  assert (Hnot : "" ∉ ["A"; "N"; "H"]).
  { intros Hin. repeat (apply elem_of_cons in Hin as [Hin|Hin]; [discriminate|]).
    by apply elem_of_nil in Hin. }
  specialize (Hall "" Hnot). vm_compute in Hall. discriminate.
Qed.

End SeasonClaims.

(** ** The order of strings *)

Section StringOrder.



End StringOrder.

(** ** The advanced stats *)

Section Advanced.
Import Utils Ref.
Implicit Types (df : DataFrame) (s : Series).

Lemma getitem_Some {V} (d : gmap string V) k v : d !! k = Some v -> getitem d k = Ok v.
Proof. unfold getitem. by intros ->. Qed.

Lemma advanced_side_columns df c fga fta orb tov score ast fgm fgm3 odr :
  c = "T" \/ c = "O" ->
  df !! (c +:+ "FGA") = Some fga -> df !! (c +:+ "FTA") = Some fta ->
  df !! (c +:+ "OR") = Some orb -> df !! (c +:+ "TO") = Some tov ->
  df !! (c +:+ "Score") = Some score -> df !! (c +:+ "Ast") = Some ast ->
  df !! (c +:+ "FGM") = Some fgm -> df !! (c +:+ "FGM3") = Some fgm3 ->
  df !! ((if String.eqb c "O" then "T" else "O") +:+ "DR") = Some odr ->
  advanced_side df c
  = Ok (<[c +:+ "ftr" := s_div fta fga]>
        (<[c +:+ "orbp" := s_div orb (s_add orb odr)]>
         (<[c +:+ "efgp" := s_div (s_add fgm (s_scale 0.5 fgm3)) fga]>
          (<[c +:+ "tovr" := s_div tov (s_add (s_add fga (s_scale 0.44 fta)) tov)]>
           (<[c +:+ "astr" :=
                s_div ast (s_add (s_add (s_add fga (s_scale 0.44 fta)) ast) tov)]>
            (<[c +:+ "eff" :=
                 s_div (s_scale 100 score)
                       (s_add (s_sub (s_add fga (s_scale 0.44 fta)) orb) tov)]>
             (<[c +:+ "poss" :=
                  s_add (s_sub (s_add fga (s_scale 0.44 fta)) orb) tov]> df))))))).
Proof.
  intros [-> | ->]; cbn [String.eqb Ascii.eqb Bool.eqb String.append];
    intros Hfga Hfta Horb Htov Hscore Hast Hfgm Hfgm3 Hodr;
    unfold advanced_side; cbn [String.eqb Ascii.eqb Bool.eqb String.append];
    repeat (first [ rewrite (getitem_Some _ _ _ Hfga)
                  | erewrite getitem_Some
                      by (rewrite ?lookup_insert_ne by discriminate;
                          first [apply lookup_insert_eq | eassumption]) ];
            cbn [mbind res_bind bind]);
    reflexivity.
Qed.

Ltac column H col s Hs Ls :=
  destruct (H col) as (s & Hs & Ls);
  [ apply (bool_decide_unpack _); vm_compute; exact I | ].

Ltac cell_of Hi s Ls x Hx :=
  destruct (lookup_lt_is_Some_2 s _ ltac:(rewrite Ls; exact Hi)) as [x Hx].

Ltac through_inserts :=
  rewrite ?lookup_insert_ne by discriminate;
  first [ apply lookup_insert_eq | eassumption ].

(** Inside its range an [int64] sum does not wrap. *)
Lemma wrap64_in_range z : in_int64 z -> wrap64 z = z.
Proof.
  unfold in_int64, wrap64. intros Hz.
  rewrite Z.mod_small by lia. lia.
Qed.

(** C2: on a table that has the 21 columns of totals as [int64] columns,
    each with one cell per row, [add_advanced_stats] returns, and in every
    row the new columns hold, for each side [c] with [opp] the other side,
    the values [cposs = cFGA + 0.44*cFTA - cOR + cTO],
    [ceff = 100*cScore/cposs],
    [castr = cAst/(cFGA + 0.44*cFTA + cAst + cTO)],
    [ctovr = cTO/(cFGA + 0.44*cFTA + cTO)],
    [cefgp = (cFGM + 0.5*cFGM3)/cFGA], [corbp = cOR/(cOR + oppDR)],
    [cftr = cFTA/cFGA], and
    [rawpace = 0.5*(Tposs+Oposs)/(wins+losses+0.125*totOT)], where the two
    sums [cOR + oppDR] and [wins + losses] are sums of [int64] cells, which
    wrap around outside [-2^63 .. 2^63 - 1], and every other operation is
    a binary64 operation on the cells converted to [float], in the order
    of the source. Inside the range the two sums are the integer sums. *)
Theorem advanced_stats_formulas (df : DataFrame) (n : nat) :
  (forall col, col ∈ input_columns ->
     exists cells, df !! col = Some (Int64 cells) /\ length cells = n) ->
  exists df' : DataFrame,
    add_advanced_stats df = Ok df'
    /\ forall i : nat, (i < n)%nat ->
       forall c opp : string,
         (c = "T" /\ opp = "O") \/ (c = "O" /\ opp = "T") ->
         let z := fun col => default 0 (int_cell df col i) in
         let v := fun col => float_of_Z (z col) in
         let v' := fun col => default 0%float (float_cell df' col i) in
         let rebounds := (z (c +:+ "OR") + z (opp +:+ "DR") + 2 ^ 63) mod 2 ^ 64 - 2 ^ 63 in
         let games := (z "wins" + z "losses" + 2 ^ 63) mod 2 ^ 64 - 2 ^ 63 in
         float_cell df' (c +:+ "poss") i
         = Some (v (c +:+ "FGA") + 0.44 * v (c +:+ "FTA") - v (c +:+ "OR")
                 + v (c +:+ "TO"))%float
         /\ float_cell df' (c +:+ "eff") i
            = Some (100 * v (c +:+ "Score") / v' (c +:+ "poss"))%float
         /\ float_cell df' (c +:+ "astr") i
            = Some (v (c +:+ "Ast")
                    / (v (c +:+ "FGA") + 0.44 * v (c +:+ "FTA") + v (c +:+ "Ast")
                       + v (c +:+ "TO")))%float
         /\ float_cell df' (c +:+ "tovr") i
            = Some (v (c +:+ "TO")
                    / (v (c +:+ "FGA") + 0.44 * v (c +:+ "FTA") + v (c +:+ "TO")))%float
         /\ float_cell df' (c +:+ "efgp") i
            = Some ((v (c +:+ "FGM") + 0.5 * v (c +:+ "FGM3")) / v (c +:+ "FGA"))%float
         /\ float_cell df' (c +:+ "orbp") i
            = Some (v (c +:+ "OR") / float_of_Z rebounds)%float
         /\ float_cell df' (c +:+ "ftr") i
            = Some (v (c +:+ "FTA") / v (c +:+ "FGA"))%float
         /\ float_cell df' "rawpace" i
            = Some (0.5 * (v' "Tposs" + v' "Oposs")
                    / (float_of_Z games + 0.125 * v "totOT"))%float
         /\ (in_int64 (z (c +:+ "OR") + z (opp +:+ "DR")) ->
             rebounds = z (c +:+ "OR") + z (opp +:+ "DR"))
         /\ (in_int64 (z "wins" + z "losses") -> games = z "wins" + z "losses").
Proof.
  intros Hin.
  column Hin "TFGA" tfga Htfga Ltfga. column Hin "TFTA" tfta Htfta Ltfta.
  column Hin "TOR" tor Htor Ltor. column Hin "TTO" tto Htto Ltto.
  column Hin "TScore" tscore Htscore Ltscore. column Hin "TAst" tast Htast Ltast.
  column Hin "TFGM" tfgm Htfgm Ltfgm. column Hin "TFGM3" tfgm3 Htfgm3 Ltfgm3.
  column Hin "TDR" tdr Htdr Ltdr.
  column Hin "OFGA" ofga Hofga Lofga. column Hin "OFTA" ofta Hofta Lofta.
  column Hin "OOR" oor Hoor Loor. column Hin "OTO" oto Hoto Loto.
  column Hin "OScore" oscore Hoscore Loscore. column Hin "OAst" oast Hoast Loast.
  column Hin "OFGM" ofgm Hofgm Lofgm. column Hin "OFGM3" ofgm3 Hofgm3 Lofgm3.
  column Hin "ODR" odr Hodr Lodr.
  column Hin "wins" w Hw Lw. column Hin "losses" l Hl Ll.
  column Hin "totOT" ot Hot Lot.
  clear Hin.
  eexists. split.
  - unfold add_advanced_stats.
    erewrite (advanced_side_columns df "T") by (first [by left | eassumption]).
    cbn [mbind res_bind bind String.append].
    erewrite (advanced_side_columns _ "O") by (first [by right | through_inserts]).
    cbn [mbind res_bind bind String.append].
    repeat (erewrite getitem_Some by through_inserts; cbn [mbind res_bind bind]).
    reflexivity.
  - intros i Hi c opp Hc z v v' rebounds games.
    cell_of Hi tfga Ltfga xtfga Xtfga. cell_of Hi tfta Ltfta xtfta Xtfta.
    cell_of Hi tor Ltor xtor Xtor. cell_of Hi tto Ltto xtto Xtto.
    cell_of Hi tscore Ltscore xtscore Xtscore. cell_of Hi tast Ltast xtast Xtast.
    cell_of Hi tfgm Ltfgm xtfgm Xtfgm. cell_of Hi tfgm3 Ltfgm3 xtfgm3 Xtfgm3.
    cell_of Hi tdr Ltdr xtdr Xtdr.
    cell_of Hi ofga Lofga xofga Xofga. cell_of Hi ofta Lofta xofta Xofta.
    cell_of Hi oor Loor xoor Xoor. cell_of Hi oto Loto xoto Xoto.
    cell_of Hi oscore Loscore xoscore Xoscore. cell_of Hi oast Loast xoast Xoast.
    cell_of Hi ofgm Lofgm xofgm Xofgm. cell_of Hi ofgm3 Lofgm3 xofgm3 Xofgm3.
    cell_of Hi odr Lodr xodr Xodr.
    cell_of Hi w Lw xw Xw. cell_of Hi l Ll xl Xl. cell_of Hi ot Lot xot Xot.
    assert (Hwrap : forall a b, in_int64 (a + b) ->
              (a + b + 2 ^ 63) mod 2 ^ 64 - 2 ^ 63 = a + b).
    { intros a b Hab. exact (wrap64_in_range _ Hab). }
    subst rebounds games v v' z.
    unfold float_cell, int_cell, s_add, s_sub, s_div, s_scale, to_float64, wrap64.
    destruct Hc as [[-> ->]|[-> ->]]; cbv [String.append];
      repeat (first [ rewrite lookup_insert_eq
                    | rewrite lookup_insert_ne by discriminate ]);
      rewrite ?Htfga, ?Htfta, ?Htor, ?Htto, ?Htscore, ?Htast, ?Htfgm, ?Htfgm3, ?Htdr,
        ?Hofga, ?Hofta, ?Hoor, ?Hoto, ?Hoscore, ?Hoast, ?Hofgm, ?Hofgm3, ?Hodr,
        ?Hw, ?Hl, ?Hot;
      repeat (first [rewrite lookup_zip_with | rewrite list_lookup_fmap]);
      rewrite ?Xtfga, ?Xtfta, ?Xtor, ?Xtto, ?Xtscore, ?Xtast, ?Xtfgm, ?Xtfgm3, ?Xtdr,
        ?Xofga, ?Xofta, ?Xoor, ?Xoto, ?Xoscore, ?Xoast, ?Xofgm, ?Xofgm3, ?Xodr,
        ?Xw, ?Xl, ?Xot;
      cbn [default mbind option_bind fmap option_fmap option_map];
      (repeat split; first [reflexivity | apply Hwrap]).
Qed.

End Advanced.

(** ** The training rows *)

Section Training.
Import Utils Ref.




End Training.

(** ** Dates: the day before, and [str] of a date *)

Section Dates.
Import Calendar Ref.













End Dates.

(** ** The scraper *)

Section Scraper.
Import Scrape Ref.
Implicit Types (st : State) (tr : TR).

(** *** Game identifiers *)



(** *** Buckets *)

Lemma seen_declare_bucket date st key :
  seen (declare_bucket date st) key = seen st key.
Proof.
  unfold seen, declare_bucket. destruct (gids st !! date) eqn:E; [done|]. simpl.
  destruct (decide (date = key)) as [<-|Hne].
  - by rewrite lookup_insert_eq, E.
  - by rewrite lookup_insert_ne.
Qed.

Lemma declare_bucket_present date st :
  exists l, gids (declare_bucket date st) !! date = Some l /\ l = seen st date.
Proof.
  unfold declare_bucket, seen. destruct (gids st !! date) eqn:E.
  - rewrite E. eauto.
  - simpl. rewrite lookup_insert_eq. eauto.
Qed.

Lemma is_duplicate_declared st date gid datem1day gidm1day :
  is_duplicate (declare_bucket date st) date gid datem1day gidm1day
  = Ok (bool_decide (gid ∈ seen st date)
        || bool_decide (gidm1day ∈ seen st datem1day)).
Proof.
  unfold is_duplicate.
  destruct (declare_bucket_present date st) as (l & Hl & ->).
  unfold getitem. rewrite Hl. cbn. do 2 f_equal.
  rewrite <- (seen_declare_bucket date st datem1day). unfold seen.
  destruct (gids (declare_bucket date st) !! datem1day); simpl;
    first [done | symmetry; apply bool_decide_eq_false_2, not_elem_of_nil].
Qed.

Lemma bucket_append_Ok d date x d' :
  bucket_append d date x = Ok d' ->
  exists l, d !! date = Some l /\ d' = <[date := (l ++ [x])%list]> d.
Proof.
  unfold bucket_append, getitem. destruct (d !! date) as [l|]; [|discriminate].
  intros [= <-]. eauto.
Qed.


(** *** The loop body on a row that reaches the duplicate check *)

Lemma process_tr_candidate season team startdate enddate schedule st tr
    id date opp d dm1 :
  tr_id tr = Some id ->
  date_game_a tr = Some date ->
  opp_id_a tr = Some opp ->
  date_filtered startdate enddate date = Ok false ->
  Calendar.parse_date date = Ok d ->
  Calendar.minus_one_day d = Ok dm1 ->
  process_tr season team startdate enddate schedule st tr
  = (let gid := get_gid date team opp in
     let gidm1day := get_gid (Calendar.date_str dm1) team opp in
     let st1 := declare_bucket date st in
     if bool_decide (gid ∈ seen st date)
        || bool_decide (gidm1day ∈ seen st (Calendar.date_str dm1))
     then Ok (st1, Duplicate)
     else
       gids' ← bucket_append (gids st1) date gid;
       r ← extract_record season team opp date enddate schedule tr;
       rows' ← bucket_append (rows st1) date (format_row r);
       mret ({| gids := gids'; rows := rows' |}, Emitted r)).
Proof.
  intros Hid Hdate Hopp Hfilt Hparse Hm1. unfold process_tr.
  rewrite Hid, Hdate, Hfilt. cbn [mbind res_bind bind].
  rewrite Hopp, Hparse. cbn [mbind res_bind bind].
  rewrite Hm1. cbn [mbind res_bind bind].
  rewrite is_duplicate_declared. cbn [mbind res_bind bind].
  destruct (_ || _); reflexivity.
Qed.



Lemma later_trans st1 st2 st3 : later st1 st2 -> later st2 st3 -> later st1 st3.
Proof.
  intros H12 H23. induction H23 as [|? ? ? ? ? ? ? ? ? ? _ IH Hstep]; [done|].
  eapply later_step; [apply IH, H12|exact Hstep].
Qed.

(** The loops only move to later states. *)
Lemma tr_loop_later season team startdate enddate schedule trs :
  forall st st' os,
    tr_loop season team startdate enddate schedule st trs = Ok (st', os) ->
    later st st'.
Proof.
  induction trs as [|tr trs IH]; intros st st' os H; simpl in H.
  - injection H as <- _. constructor.
  - apply bind_Ok in H as ([st1 o] & Hstep & H).
    apply bind_Ok in H as ([st2 os'] & Hloop & H).
    injection H as <- _.
    eapply later_trans; [|eapply IH, Hloop].
    eapply later_step; [constructor|exact Hstep].
Qed.

Lemma team_loop_later site season startdate enddate teams :
  forall st st' os,
    team_loop site season startdate enddate st teams = Ok (st', os) ->
    later st st'.
Proof.
  induction teams as [|team teams IH]; intros st st' os H; simpl in H.
  - injection H as <- _. constructor.
  - apply bind_Ok in H as ([st1 os1] & Hrows & H).
    apply bind_Ok in H as ([st2 os2] & Hloop & H).
    injection H as <- _.
    eapply later_trans; [eapply tr_loop_later, Hrows|eapply IH, Hloop].
Qed.



(** *** The reading of one record *)

Lemma getitem_Ok {V} (d : gmap string V) k v : getitem d k = Ok v -> d !! k = Some v.
Proof. unfold getitem. destruct (d !! k); congruence. Qed.

Lemma read_stats_lookup tr names :
  forall sd od sd' od',
    read_stats tr names sd od = Ok (sd', od') ->
    forall name,
      (name ∈ names ->
       exists v ov,
         cell_string tr name ≫= getint = Ok v
         /\ cell_string tr ("opp_" +:+ name) ≫= getint = Ok ov
         /\ sd' !! name = Some v /\ od' !! name = Some ov)
      /\ (name ∉ names -> sd' !! name = sd !! name /\ od' !! name = od !! name).
Proof.
  induction names as [|stat rest IH]; intros sd od sd' od' H name; simpl in H.
  - injection H as <- <-. split; [intros Hin; by apply elem_of_nil in Hin|done].
  - apply bind_Ok in H as (c & Hc & H). apply bind_Ok in H as (v & Hv & H).
    apply bind_Ok in H as (oc & Hoc & H). apply bind_Ok in H as (ov & Hov & H).
    destruct (IH _ _ _ _ H name) as [IHin IHout].
    destruct (decide (name ∈ rest)) as [Hrest|Hrest].
    + split; [intros _; by apply IHin|].
      intros Hnot. exfalso. apply Hnot. by right.
    + destruct (IHout Hrest) as [Hsd Hod]. split.
      * intros Hin. apply elem_of_cons in Hin as [->|Hin]; [|done].
        exists v, ov. rewrite Hc, Hoc, Hsd, Hod, !lookup_insert_eq. done.
      * intros Hnot. rewrite Hsd, Hod.
        assert (stat <> name) by (intros ->; apply Hnot; by left).
        by rewrite !lookup_insert_ne.
Qed.

(** The location as written for the winner, given the page's location. *)
Lemma extract_record_Ok season team opp date enddate schedule tr r :
  extract_record season team opp date enddate schedule tr = Ok r ->
  exists gtype rawloc loc numot pts opp_pts,
    get_gtype enddate schedule date = Ok gtype
    /\ cell_string tr "game_location" = Ok rawloc
    /\ normalize_loc rawloc = Ok loc
    /\ get_numot (game_result_small tr) = Ok numot
    /\ cell_string tr "pts" ≫= getint = Ok pts
    /\ cell_string tr "opp_pts" ≫= getint = Ok opp_pts
    /\ Season r = season /\ DayNum r = date /\ Type_ r = gtype /\ NumOT r = numot
    /\ (if opp_pts <? pts
        then WTeamID r = team /\ LTeamID r = opp /\ WScore r = pts
             /\ LScore r = opp_pts /\ WLoc r = loc
        else WTeamID r = opp /\ LTeamID r = team /\ WScore r = opp_pts
             /\ LScore r = pts
             /\ WLoc r = (if String.eqb loc "H" then "A"
                          else if String.eqb loc "A" then "H" else loc)).
Proof.
  unfold extract_record. intros H.
  apply bind_Ok in H as (gtype & Hgtype & H).
  apply bind_Ok in H as (rawloc & Hraw & H).
  apply bind_Ok in H as (loc & Hloc & H).
  apply bind_Ok in H as (numot & Hnumot & H).
  apply bind_Ok in H as ([sd od] & Hstats & H).
  apply bind_Ok in H as ([[[[wd ld] wteam] lteam] loc'] & Horient & H).
  destruct (read_stats_lookup _ _ _ _ _ _ Hstats "pts") as [Hpts _].
  destruct Hpts as (pts & opp_pts & Hcell & Hocell & Hsd & Hod);
    [unfold stats; by left|].
  exists gtype, rawloc, loc, numot, pts, opp_pts.
  unfold orient in Horient. unfold getitem in Horient.
  rewrite Hsd, Hod in Horient. cbn [mbind res_bind bind] in Horient.
  unfold make_record in H.
  apply bind_Ok in H as (wpts & Hwpts%getitem_Ok & H).
  apply bind_Ok in H as (lpts & Hlpts%getitem_Ok & H).
  apply bind_Ok in H as (ws & _ & H).
  apply bind_Ok in H as (ls & _ & H).
  injection H as <-. cbn.
  destruct (opp_pts <? pts); injection Horient as <- <- <- <- <-;
    rewrite ?Hsd, ?Hod in *; simplify_eq; repeat split; done.
Qed.

Lemma process_tr_Emitted season team startdate enddate schedule st tr st' r :
  process_tr season team startdate enddate schedule st tr = Ok (st', Emitted r) ->
  exists id date opp d dm1,
    tr_id tr = Some id /\ date_game_a tr = Some date /\ opp_id_a tr = Some opp
    /\ date_filtered startdate enddate date = Ok false
    /\ Calendar.parse_date date = Ok d /\ Calendar.minus_one_day d = Ok dm1
    /\ extract_record season team opp date enddate schedule tr = Ok r.
Proof.
  unfold process_tr. intros H.
  destruct (tr_id tr) as [id|]; [|discriminate].
  destruct (date_game_a tr) as [date|]; [|discriminate].
  apply bind_Ok in H as (filtered & Hfilt & H).
  destruct filtered; [discriminate|].
  destruct (opp_id_a tr) as [opp|]; [|discriminate].
  apply bind_Ok in H as (d & Hd & H).
  apply bind_Ok in H as (dm1 & Hdm1 & H).
  apply bind_Ok in H as (dup & _ & H).
  destruct dup; [discriminate|].
  apply bind_Ok in H as (gids' & _ & H).
  apply bind_Ok in H as (r' & Hr & H).
  apply bind_Ok in H as (rows' & _ & H).
  injection H as _ <-. eauto 12.
Qed.

End Scraper.

Section ScraperClaims.
Import Scrape Ref Pages.
Implicit Types (st : State) (tr : TR).




(** The line of a record and the lines of a state after a row is written. *)
Lemma process_tr_line season team startdate enddate schedule st tr st' r :
  process_tr season team startdate enddate schedule st tr = Ok (st', Emitted r) ->
  exists date old,
    date_game_a tr = Some date
    /\ rows (declare_bucket date st) !! date = Some old
    /\ rows st' = <[date := (old ++ [format_row r])%list]> (rows (declare_bucket date st)).
Proof.
  intros H.
  destruct (process_tr_Emitted _ _ _ _ _ _ _ _ _ H)
    as (id & date & opp & d & dm1 & Hid & Hdate & Hopp & Hfilt & Hparse & Hm1 & _).
  rewrite (process_tr_candidate season team startdate enddate schedule st tr
             id date opp d dm1 Hid Hdate Hopp Hfilt Hparse Hm1) in H.
  cbn zeta in H. destruct (_ || _); [discriminate|].
  apply bind_Ok in H as (gids' & _ & H).
  apply bind_Ok in H as (r' & _ & H).
  apply bind_Ok in H as (rows' & Hrows & H).
  injection H as <- <-.
  apply bucket_append_Ok in Hrows as (old & Hold & ->).
  exists date, old. done.
Qed.

(** C4: in every row that is written, the side with more points is the
    winner, whichever team's page the row comes from: when the team of the
    page has more points it is the winner and the location of the page is
    written as it is; otherwise the opponent is the winner and the
    location is turned (H to A, A to H, N as it is). The line appended to
    the lines of the date holds, after the season, the date and the game
    type, the winner, its points, the loser, its points and that
    location, in this order. *)
Theorem winner_orientation (season : Z) (team : string)
    (startdate enddate : option Calendar.date) (schedule : list SchedRow)
    (st st' : State) (tr : TR) (r : GameRecord) :
  process_tr season team startdate enddate schedule st tr = Ok (st', Emitted r) ->
  exists (date opp : string) (pts opp_pts : Z) (loc gtype : string)
         (old rest : list string),
    date_game_a tr = Some date
    /\ opp_id_a tr = Some opp
    /\ cell_string tr "pts" ≫= getint = Ok pts
    /\ cell_string tr "opp_pts" ≫= getint = Ok opp_pts
    /\ cell_string tr "game_location" ≫= normalize_loc = Ok loc
    /\ (loc = "H" \/ loc = "A" \/ loc = "N")
    /\ let won := bool_decide (opp_pts < pts) in
       let wteam := if won then team else opp in
       let lteam := if won then opp else team in
       let wscore := if won then pts else opp_pts in
       let lscore := if won then opp_pts else pts in
       let wloc := if won then loc
                   else if String.eqb loc "H" then "A"
                        else if String.eqb loc "A" then "H" else loc in
       lscore <= wscore
       /\ WTeamID r = wteam /\ LTeamID r = lteam
       /\ WScore r = wscore /\ LScore r = lscore /\ WLoc r = wloc
       /\ rows (declare_bucket date st) !! date = Some old
       /\ rows st'
          = <[date :=
                (old ++ [String.concat ","
                           ([pretty season; date; gtype; wteam; pretty wscore; lteam;
                             pretty lscore; wloc] ++ rest)
                         +:+ String (ascii_of_nat 10) EmptyString])%list]>
              (rows (declare_bucket date st)).
Proof.
  intros H.
  destruct (process_tr_line _ _ _ _ _ _ _ _ _ H) as (date & old & Hdate & Hold & Hrows).
  apply process_tr_Emitted in H
    as (id & date' & opp & d & dm1 & _ & Hdate' & Hopp & _ & _ & _ & Hrec).
  assert (date' = date) as -> by congruence.
  apply extract_record_Ok in Hrec
    as (gtype & rawloc & loc & numot & pts & opp_pts & _ & Hraw & Hloc & _
        & Hpts & Hopts & Hseason & Hday & Htype & Hnumot & Hside).
  exists date, opp, pts, opp_pts, loc, (str_of_gtype gtype), old,
    (pretty numot :: (pretty <$> WStats r) ++ (pretty <$> LStats r))%list.
  split; [exact Hdate|]. split; [exact Hopp|]. split; [exact Hpts|].
  split; [exact Hopts|]. split; [by rewrite Hraw|].
  split.
  { unfold normalize_loc in Hloc. destruct rawloc as [l|]; [|injection Hloc as <-; auto].
    destruct (String.eqb l "@"); [injection Hloc as <-; auto|].
    destruct (String.eqb l "N"); [injection Hloc as <-; auto|discriminate]. }
  cbn zeta.
  assert (Hline : format_row r
                  = String.concat ","
                      ([pretty season; date; str_of_gtype gtype; WTeamID r;
                        pretty (WScore r); LTeamID r; pretty (LScore r); WLoc r]
                       ++ pretty numot :: (pretty <$> WStats r) ++ (pretty <$> LStats r))
                    +:+ String (ascii_of_nat 10) EmptyString).
  { unfold format_row, str_of_int, LF. by rewrite Hseason, Hday, Htype, Hnumot. }
  rewrite Hline in Hrows.
  destruct (Z.ltb_spec opp_pts pts) as [Hlt|Hge].
  - rewrite (bool_decide_eq_true_2 _ Hlt).
    destruct Hside as (Hw & Hl & Hws & Hls & Hwl).
    rewrite Hw, Hl, Hws, Hls, Hwl in Hrows.
    split; [lia|]. by repeat split.
  - rewrite (bool_decide_eq_false_2 (opp_pts < pts)) by lia.
    destruct Hside as (Hw & Hl & Hws & Hls & Hwl).
    rewrite Hw, Hl, Hws, Hls, Hwl in Hrows.
    split; [lia|]. by repeat split.
Qed.

Lemma winner_orientation_witness :
  exists st' r,
    process_tr 2020 "indiana" None None schedule empty_state tr_indiana
    = Ok (st', Emitted r)
    /\ WTeamID r = "purdue" /\ LTeamID r = "indiana"
    /\ WScore r = 70 /\ LScore r = 65 /\ WLoc r = "H"
    /\ exists gtype rest,
         rows st' !! "2020-01-15"
         = Some [String.concat ","
                   (["2020"; "2020-01-15"; gtype; "purdue"; "70"; "indiana"; "65"; "H"]
                    ++ rest)
                 +:+ String (ascii_of_nat 10) EmptyString].
Proof.
  destruct (process_tr 2020 "indiana" None None schedule empty_state tr_indiana)
    as [[st' [| |r]]|e] eqn:Hrun; try (vm_compute in Hrun; discriminate Hrun).
  exists st', r. split; [reflexivity|].
  destruct (winner_orientation 2020 "indiana" None None schedule empty_state st'
              tr_indiana r Hrun)
    as (date & opp & pts & opp_pts & loc & gtype & old & rest & Hdate & Hopp & Hpts
        & Hopts & Hloc & _ & Hside).
  injection Hdate as <-. injection Hopp as <-.
  vm_compute in Hpts. injection Hpts as <-.
  vm_compute in Hopts. injection Hopts as <-.
  vm_compute in Hloc. injection Hloc as <-.
  cbn zeta in Hside.
  destruct Hside as (_ & Hw & Hl & Hws & Hls & Hwl & Hold & Hrows).
  vm_compute in Hold. injection Hold as <-.
  split; [exact Hw|]. split; [exact Hl|]. split; [exact Hws|].
  split; [exact Hls|]. split; [exact Hwl|].
  exists gtype, rest. rewrite Hrows, lookup_insert_eq. reflexivity.
Defined.

(** C6: the location cell is read as home when it is blank, away for
    ["@"], neutral for ["N"]; any other content raises, so that no row is
    written for such a record: the reading of the record fails, with the
    content of the cell as the error when the game type was found. *)
Theorem location_normalization :
  normalize_loc None = Ok "H"
  /\ normalize_loc (Some "@") = Ok "A"
  /\ normalize_loc (Some "N") = Ok "N"
  /\ (forall l : string,
        l <> "@" -> l <> "N" -> normalize_loc (Some l) = Raise (Exception l))
  /\ (forall season team opp date enddate schedule tr (l : string),
        cells tr !! "game_location" = Some (Some l) ->
        l <> "@" -> l <> "N" ->
        (exists e, extract_record season team opp date enddate schedule tr = Raise e)
        /\ (forall gtype,
              get_gtype enddate schedule date = Ok gtype ->
              extract_record season team opp date enddate schedule tr
              = Raise (Exception l)))
  /\ (forall season team startdate enddate schedule st tr st' r,
        process_tr season team startdate enddate schedule st tr = Ok (st', Emitted r) ->
        cells tr !! "game_location" = Some None
        \/ cells tr !! "game_location" = Some (Some "@")
        \/ cells tr !! "game_location" = Some (Some "N")).
Proof.
  assert (Hother : forall l : string,
            l <> "@" -> l <> "N" -> normalize_loc (Some l) = Raise (Exception l)).
  { intros l H1 H2. unfold normalize_loc.
    apply String.eqb_neq in H1, H2. by rewrite H1, H2. }
  split; [reflexivity|]. split; [reflexivity|]. split; [reflexivity|].
  split; [exact Hother|]. split.
  - intros season team opp date enddate schedule tr l Hcell H1 H2.
    assert (Hgo : forall gtype, get_gtype enddate schedule date = Ok gtype ->
              extract_record season team opp date enddate schedule tr
              = Raise (Exception l)).
    { intros gtype Hg. unfold extract_record, cell_string.
      rewrite Hg, Hcell. cbn [mbind res_bind bind].
      by rewrite (Hother l H1 H2). }
    split; [|exact Hgo].
    destruct (get_gtype enddate schedule date) as [gtype|e] eqn:Hg.
    + eauto.
    + exists e. unfold extract_record. by rewrite Hg.
  - intros season team startdate enddate schedule st tr st' r H.
    apply process_tr_Emitted in H
      as (id & date & opp & d & dm1 & _ & _ & _ & _ & _ & _ & Hrec).
    apply extract_record_Ok in Hrec
      as (gtype & rawloc & loc & _ & _ & _ & _ & Hraw & Hloc & _).
    unfold cell_string in Hraw.
    destruct (cells tr !! "game_location") as [c|]; [|discriminate].
    injection Hraw as ->.
    destruct rawloc as [l|]; [|by left]. right. unfold normalize_loc in Hloc.
    destruct (String.eqb_spec l "@") as [->|]; [by left|].
    destruct (String.eqb_spec l "N") as [->|]; [by right|discriminate].
Qed.

Lemma location_normalization_witness :
  extract_record 2020 "purdue" "indiana" "2020-01-15" None schedule tr_bad_location
  = Raise (Exception "H").
Proof.
  apply (proj2 (proj1 (proj2 (proj2 (proj2 (proj2 location_normalization))))
           2020 "purdue" "indiana" "2020-01-15" None schedule tr_bad_location "H"
           eq_refl ltac:(discriminate) ltac:(discriminate))
         (Some "RG")).
  reflexivity.
Defined.


(** C5, as the code has it: the game type is read from the schedule page,
    at the first row for the date of the game, whenever no end date is
    given or the month of the end date is February or later, with ["REG"]
    written as ["RG"] and ["CTOURN"] as ["CT"] and any other type as it
    is; a date that the schedule page does not have then raises. Exactly
    when an end date is given and its month is January, the page is not
    read and the game type is ["RG"]. The type so obtained is the one of
    every row that is written. *)
Theorem game_type_rule (enddate : option Calendar.date) (schedule : list SchedRow)
    (date : string) :
  (uses_schedule enddate = false
   <-> exists ed, enddate = Some ed /\ Calendar.month ed < 2)
  /\ (uses_schedule enddate = false -> get_gtype enddate schedule date = Ok (Some "RG"))
  /\ (uses_schedule enddate = true ->
      (forall row,
          List.find (fun r => String.eqb (csk r) date) schedule = Some row ->
          get_gtype enddate schedule date = Ok (normalized_type (game_type row)))
      /\ ((forall row, row ∈ schedule -> csk row <> date) ->
          get_gtype enddate schedule date = Raise AttributeError))
  /\ normalized_type (Some "REG") = Some "RG"
  /\ normalized_type (Some "CTOURN") = Some "CT"
  /\ (forall g, g <> Some "REG" -> g <> Some "CTOURN" -> normalized_type g = g)
  /\ (forall season team startdate st tr st' r,
        process_tr season team startdate enddate schedule st tr = Ok (st', Emitted r) ->
        date_game_a tr = Some date ->
        get_gtype enddate schedule date = Ok (Type_ r)).
Proof.
  split; [|split; [|split; [|split; [|split; [|split]]]]].
  - unfold uses_schedule. destruct enddate as [ed|].
    + rewrite Z.leb_gt. split; [eauto|]. by intros (ed' & [= <-] & H).
    + split; [discriminate|]. by intros (? & [=] & _).
  - unfold get_gtype. intros ->. reflexivity.
  - unfold get_gtype, schedule_type. intros ->. split.
    + intros row ->. cbn [mbind res_bind bind mret res_ret]. unfold normalized_type.
      repeat case_bool_decide; first [reflexivity | congruence].
    + intros Hnone.
      destruct (List.find _ schedule) as [row|] eqn:Hfind; [|reflexivity].
      apply find_some in Hfind as [Hin Heq]. apply String.eqb_eq in Heq.
      exfalso. apply (Hnone row); [|exact Heq]. by apply list_elem_of_In.
  - reflexivity.
  - reflexivity.
  - intros g H1 H2. unfold normalized_type. by rewrite !bool_decide_eq_false_2.
  - intros season team startdate st tr st' r H Hdate.
    apply process_tr_Emitted in H
      as (id & date' & opp & d & dm1 & _ & Hdate' & _ & _ & _ & _ & Hrec).
    assert (date' = date) as -> by congruence.
    apply extract_record_Ok in Hrec
      as (gtype & _ & _ & _ & _ & _ & Hg & _ & _ & _ & _ & _ & _ & _ & <- & _).
    exact Hg.
Qed.

Lemma game_type_rule_witness :
  get_gtype (Some jan31) [] "2020-01-15" = Ok (Some "RG")
  /\ get_gtype None schedule "2020-03-12" = Ok (Some "CT")
  /\ get_gtype None schedule "2020-02-01" = Raise AttributeError.
Proof.
  split; [|split].
  - apply (proj1 (proj2 (game_type_rule (Some jan31) [] "2020-01-15"))). reflexivity.
  - apply (proj1 (proj1 (proj2 (proj2 (game_type_rule None schedule "2020-03-12")))
                    eq_refl)
             {| csk := "2020-03-12"; game_type := Some "CTOURN" |}).
    reflexivity.
  - apply (proj2 (proj1 (proj2 (proj2 (game_type_rule None schedule "2020-02-01")))
                    eq_refl)).
    intros row Hin.
    repeat (apply elem_of_cons in Hin as [->|Hin]; [discriminate|]).
    by apply elem_of_nil in Hin.
Defined.

(** The sentence of C5 on the default fails: without an end date, a date
    that the schedule page does not have makes the reading of the game
    type raise, and with it the whole call; no ["RG"] is written. *)
Lemma no_default_without_end_date :
  (forall row, row ∈ schedule -> csk row <> "2020-02-01")
  /\ get_gtype None schedule "2020-02-01" = Raise AttributeError
  /\ get_gtype None schedule "2020-02-01" <> Ok (Some "RG")
  /\ process_tr 2020 "purdue" None None schedule empty_state tr_february
     = Raise AttributeError
  /\ get_game_data
       {| team_list := ["purdue"]; gamelog := fun _ => [tr_february];
          schedule_of := fun _ => schedule |}
       2020 None true None None None
     = Raise AttributeError.
Proof.
  split; [|split; [|split; [|split]]].
  - intros row Hin.
    repeat (apply elem_of_cons in Hin as [->|Hin]; [discriminate|]).
    by apply elem_of_nil in Hin.
  - reflexivity.
  - discriminate.
  - vm_compute. reflexivity.
  - vm_compute. reflexivity.
Qed.

(** The two pages of [site] hold the same game; one row is written, with
    the winner and the location as on the winner's page. *)
Example one_row_for_two_pages :
  exists (written : gmap string (list string)) (r : GameRecord),
    get_game_data site 2020 None true None None None
    = Ok (written, None, [Emitted r; Duplicate])
    /\ written !! "2020-01-15" = Some [format_row r]
    /\ WTeamID r = "purdue" /\ LTeamID r = "indiana" /\ WLoc r = "H"
    /\ NumOT r = 2 /\ Type_ r = Some "RG".
Proof.
  eexists _, _. split; [vm_compute; reflexivity|].
  repeat split; vm_compute; reflexivity.
Qed.

End ScraperClaims.

Section TrainingClaims.
Import Utils Ref Examples Tables.



End TrainingClaims.

Section AdvancedClaims.
Import Utils Ref Tables.

Lemma advanced_stats_formulas_witness :
  exists df' : DataFrame,
    add_advanced_stats totals = Ok df'
    /\ float_cell df' "Tposs" 0 = Some (1800 + 0.44 * 600 - 300 + 380)%float
    /\ float_cell df' "Torbp" 0 = Some (300 / 1000)%float
    /\ float_cell df' "Oorbp" 0 = Some (280 / 1030)%float.
Proof.
  destruct (advanced_stats_formulas totals 2) as (df' & Hrun & Hcells).
  { intros col Hin. unfold input_columns in Hin.
    repeat (apply elem_of_cons in Hin as [->|Hin];
            [eexists; split; [reflexivity|reflexivity]|]).
    by apply elem_of_nil in Hin. }
  exists df'. split; [exact Hrun|].
  destruct (Hcells 0%nat (Nat.lt_0_succ 1) "T" "O" (or_introl (conj eq_refl eq_refl)))
    as (Hposs & _ & _ & _ & _ & Horbp & _).
  destruct (Hcells 0%nat (Nat.lt_0_succ 1) "O" "T" (or_intror (conj eq_refl eq_refl)))
    as (_ & _ & _ & _ & _ & Horbp' & _).
  split; [refine (eq_trans Hposs _); vm_compute; reflexivity|].
  split; [refine (eq_trans Horbp _)|refine (eq_trans Horbp' _)]; vm_compute; reflexivity.
Defined.

(** The formula of C2 for [orbp] fails where the sum of the two [int64]
    columns wraps around: with [2^62] offensive rebounds and [2^62]
    defensive rebounds of the opponents, [Torbp] is [-0.5], where
    [TOR/(TOR + ODR)] is [0.5]. *)
Lemma orbp_wraps_around :
  exists df' : DataFrame,
    add_advanced_stats totals_huge = Ok df'
    /\ int_cell totals_huge "TOR" 0 = Some (2 ^ 62)
    /\ int_cell totals_huge "ODR" 0 = Some (2 ^ 62)
    /\ float_cell df' "Torbp" 0 = Some (-0.5)%float
    /\ (float_of_Z (2 ^ 62) / float_of_Z (2 ^ 62 + 2 ^ 62) = 0.5)%float
    /\ float_cell df' "Torbp" 0
       <> Some (float_of_Z (2 ^ 62) / float_of_Z (2 ^ 62 + 2 ^ 62))%float.
Proof.
  exists totals_huge_advanced.
  split; [apply is_ok_value; vm_compute; reflexivity|].
  assert (Hcell : float_cell totals_huge_advanced "Torbp" 0 = Some (-0.5)%float)
    by (vm_compute; reflexivity).
  assert (Hhalf : (float_of_Z (2 ^ 62) / float_of_Z (2 ^ 62 + 2 ^ 62) = 0.5)%float)
    by (vm_compute; reflexivity).
  split; [vm_compute; reflexivity|]. split; [vm_compute; reflexivity|].
  split; [exact Hcell|]. split; [exact Hhalf|].
  rewrite Hcell, Hhalf. intros Heq.
  apply (f_equal (fun x => match x with
                           | Some f => PrimFloat.eqb f 0.5%float
                           | None => false
                           end)) in Heq.
  vm_compute in Heq. discriminate.
Qed.

End AdvancedClaims.

(** ** The season aggregation as sums over the games *)

Section SeasonSums.
Import Utils Ref.
Implicit Types (row : Game) (a d : TeamSeasonStats) (df : list Game).

Lemma sumZ_app l1 l2 : sumZ (l1 ++ l2) = sumZ l1 + sumZ l2.
Proof. unfold sumZ. induction l1 as [|x l1 IH]; simpl; lia. Qed.

(** A fold of entries is empty, or the sum of the entries from the initial
    accumulator. *)
Lemma fold_add_entry_Some es a :
  fold_left add_entry es (Some a) = Some (fold_left acc_plus es a).
Proof.
  revert a. induction es as [|d es IH]; intros a; simpl; [done|]. apply IH.
Qed.

Lemma fold_add_entry_None es :
  fold_left add_entry es None
  = match es with
    | [] => None
    | _ => Some (fold_left acc_plus es init_stats)
    end.
Proof. destruct es as [|d es]; [done|]. simpl. apply fold_add_entry_Some. Qed.

Lemma fold_acc_plus_fields es a :
  let r := fold_left acc_plus es a in
  wins r = wins a + sumZ (wins <$> es)
  /\ losses r = losses a + sumZ (losses <$> es)
  /\ totOT r = totOT a + sumZ (totOT <$> es)
  /\ opps r = (opps a ++ flat_map opps es)%list
  /\ scores r = (scores a ++ flat_map scores es)%list
  /\ HA r = (HA a ++ flat_map HA es)%list
  /\ poss r = (poss a ++ flat_map poss es)%list
  /\ nOT r = (nOT a ++ flat_map nOT es)%list
  /\ (forall sn, box_get sn (T r) = box_get sn (T a) + sumZ ((fun d => box_get sn (T d)) <$> es))
  /\ (forall sn, box_get sn (O r) = box_get sn (O a) + sumZ ((fun d => box_get sn (O d)) <$> es)).
Proof.
  revert a. induction es as [|d es IH]; intros a; cbn zeta.
  - simpl. rewrite !app_nil_r. repeat split; try lia; intros; lia.
  - simpl fold_left. destruct (IH (acc_plus a d)) as (H1&H2&H3&H4&H5&H6&H7&H8&H9&H10).
    rewrite H1, H2, H3, H4, H5, H6, H7, H8.
    cbn [fmap list_fmap flat_map wins losses totOT opps scores HA poss nOT acc_plus].
    unfold sumZ. cbn [foldr]. fold (sumZ (wins <$> es)) (sumZ (losses <$> es))
      (sumZ (totOT <$> es)).
    rewrite <- !app_assoc.
    repeat split; try lia.
    + intros sn. rewrite H9. cbn [T acc_plus]. fold sumZ.
      assert (box_get sn (box_add (T a) (T d)) = box_get sn (T a) + box_get sn (T d))
        by (destruct sn; reflexivity).
      unfold sumZ in *. lia.
    + intros sn. rewrite H10. cbn [O acc_plus].
      assert (box_get sn (box_add (O a) (O d)) = box_get sn (O a) + box_get sn (O d))
        by (destruct sn; reflexivity).
      unfold sumZ in *. lia.
Qed.


(** The entries of a team, read off the games. *)
Lemma contribs_fields y t df :
  let es := flat_map (contribs y t) df in
  sumZ (wins <$> es) = Z.of_nat (length (games_won y t df))
  /\ sumZ (losses <$> es) = Z.of_nat (length (games_lost y t df))
  /\ sumZ (totOT <$> es)
     = sumZ (NumOT <$> games_won y t df) + sumZ (NumOT <$> games_lost y t df)
  /\ flat_map opps es = flat_map (opps_of y t) df
  /\ flat_map scores es = flat_map (scores_of y t) df
  /\ flat_map HA es = flat_map (HA_of y t) df
  /\ flat_map poss es = flat_map (fun row => twice_if_both y t row (row_poss row)) df
  /\ flat_map nOT es = flat_map (fun row => twice_if_both y t row (NumOT row)) df
  /\ (forall sn,
        sumZ ((fun d => box_get sn (T d)) <$> es)
        = sumZ ((fun row => box_get sn (Wbox row)) <$> games_won y t df)
          + sumZ ((fun row => box_get sn (Lbox row)) <$> games_lost y t df))
  /\ (forall sn,
        sumZ ((fun d => box_get sn (O d)) <$> es)
        = sumZ ((fun row => box_get sn (Lbox row)) <$> games_won y t df)
          + sumZ ((fun row => box_get sn (Wbox row)) <$> games_lost y t df)).
Proof.
  cbn zeta. unfold games_won, games_lost.
  induction df as [|row df IH]; [by repeat split|].
  destruct IH as (H1&H2&H3&H4&H5&H6&H7&H8&H9&H10).
  cbn [flat_map].
  rewrite !fmap_app, !sumZ_app, !flat_map_app, H1, H2, H3, H4, H5, H6, H7, H8.
  unfold contribs, opps_of, scores_of, HA_of, twice_if_both.
  destruct (decide (Season row = y /\ WTeamID row = t)) as [Hw|Hw];
    destruct (decide (Season row = y /\ LTeamID row = t)) as [Hl|Hl];
    rewrite ?(bool_decide_eq_true_2 _ Hw), ?(bool_decide_eq_false_2 _ Hw),
      ?(bool_decide_eq_true_2 _ Hl), ?(bool_decide_eq_false_2 _ Hl);
    rewrite !filter_cons;
    rewrite ?(decide_True _ _ Hw), ?(decide_False _ _ Hw),
      ?(decide_True _ _ Hl), ?(decide_False _ _ Hl);
    (repeat split;
     try (intros sn; rewrite fmap_app, sumZ_app; first [rewrite H9|rewrite H10]);
     cbn; rewrite ?Nat2Z.inj_succ; unfold sumZ; cbn; try reflexivity; lia).
Qed.

Lemma contribs_nil y t df :
  flat_map (contribs y t) df = []
  <-> forall row, row ∈ df ->
        ~ (Season row = y /\ (WTeamID row = t \/ LTeamID row = t)).
Proof.
  induction df as [|row df IH]; simpl.
  - split; [|done]. intros _ row Hin. by apply elem_of_nil in Hin.
  - split.
    + intros [Hrow Hrest]%app_eq_nil row' Hin.
      apply elem_of_cons in Hin as [->|Hin]; [|by apply IH].
      unfold contribs in Hrow. apply app_eq_nil in Hrow as [Hw Hl].
      intros [Hy [Ht|Ht]].
      * by rewrite bool_decide_eq_true_2 in Hw.
      * by rewrite bool_decide_eq_true_2 in Hl.
    + intros Hall. rewrite (proj2 IH), app_nil_r.
      * unfold contribs.
        rewrite !bool_decide_eq_false_2; [done| |];
          intros [? ?]; eapply Hall; [by left|eauto| by left|eauto].
      * intros row' Hin. apply Hall. by right.
Qed.

(** The accumulator of a team, when it has one, as the sum of its entries. *)
Lemma compute_season_stats_total df :
  exists stats,
    compute_season_stats df = Ok stats
    /\ forall y t,
        lookup_team y t stats
        = match flat_map (contribs y t) df with
          | [] => None
          | es => Some (fold_left acc_plus es init_stats)
          end.
Proof.
  destruct (compute_season_stats_lookup df) as (stats & Hrun & Hlook).
  exists stats. split; [exact Hrun|]. intros y t.
  rewrite Hlook, fold_add_entry_None. by destruct (flat_map _ df).
Qed.

Lemma compute_season_stats_acc df stats y t acc :
  compute_season_stats df = Ok stats ->
  lookup_team y t stats = Some acc ->
  acc = fold_left acc_plus (flat_map (contribs y t) df) init_stats.
Proof.
  intros Hrun Hacc.
  destruct (compute_season_stats_total df) as (stats' & Hrun' & Hlook).
  assert (stats' = stats) as -> by congruence.
  rewrite Hlook in Hacc. destruct (flat_map _ df); congruence.
Qed.

End SeasonSums.

Section SeasonExtras.
Import Utils Ref Examples.

Lemma contribs_cons y t df :
  flat_map (contribs y t) df <> [] ->
  exists row, row ∈ df /\ Season row = y /\ (WTeamID row = t \/ LTeamID row = t).
Proof.
  induction df as [|row df IH]; simpl; [done|]. intros Hne.
  destruct (decide (Season row = y /\ WTeamID row = t)) as [[Hy Ht]|Hw].
  { exists row. split; [by left|eauto]. }
  destruct (decide (Season row = y /\ LTeamID row = t)) as [[Hy Ht]|Hl].
  { exists row. split; [by left|eauto]. }
  unfold contribs in Hne.
  rewrite (bool_decide_eq_false_2 _ Hw), (bool_decide_eq_false_2 _ Hl) in Hne.
  destruct (IH Hne) as (row' & Hin & H). exists row'. split; [by right|exact H].
Qed.

(** X1: [compute_season_stats] holds an accumulator for a season and a
    team exactly when the team is the winner or the loser of a game of that
    season in the input: accumulators are made on first sight only. *)
Theorem team_present_iff_played (df : list Game) :
  exists stats : Stats,
    compute_season_stats df = Ok stats
    /\ forall (year : Z) (tid : string),
        is_Some (lookup_team year tid stats)
        <-> exists row, row ∈ df /\ Season row = year
                        /\ (WTeamID row = tid \/ LTeamID row = tid).
Proof.
  destruct (compute_season_stats_total df) as (stats & Hrun & Hlook).
  exists stats. split; [exact Hrun|].
  intros year tid. rewrite Hlook.
  destruct (flat_map (contribs year tid) df) as [|e es] eqn:Hes.
  - split; [by intros [? ?]|]. intros (row & Hin & Hy & Ht). exfalso.
    by apply (proj1 (contribs_nil year tid df) Hes row Hin).
  - split; [|eauto]. intros _. apply contribs_cons. by rewrite Hes.
Qed.

(** X2: the [wins] of an accumulator count the games of the season that
    the team won, its [losses] those it lost, and [totOT] is the sum of the
    overtimes of all of them. *)
Theorem wins_losses_count (df : list Game) (stats : Stats) (year : Z) (tid : string)
    (acc : TeamSeasonStats) :
  compute_season_stats df = Ok stats ->
  lookup_team year tid stats = Some acc ->
  wins acc = Z.of_nat (length (games_won year tid df))
  /\ losses acc = Z.of_nat (length (games_lost year tid df))
  /\ totOT acc = sumZ (NumOT <$> games_won year tid df)
                 + sumZ (NumOT <$> games_lost year tid df)
  /\ 1 <= wins acc + losses acc.
Proof.
  intros Hrun Hacc.
  assert (Hsome : is_Some (lookup_team year tid stats)) by eauto.
  rewrite (compute_season_stats_acc _ _ _ _ _ Hrun Hacc).
  destruct (fold_acc_plus_fields (flat_map (contribs year tid) df) init_stats)
    as (H1 & H2 & H3 & _).
  destruct (contribs_fields year tid df) as (F1 & F2 & F3 & _).
  rewrite H1, H2, H3, F1, F2, F3. cbn [wins losses totOT init_stats].
  repeat split; try lia.
  destruct (compute_season_stats_total df) as (stats' & Hrun' & Hlook).
  assert (stats' = stats) as -> by congruence.
  rewrite Hlook in Hacc.
  destruct (flat_map (contribs year tid) df) as [|e es] eqn:Hes; [discriminate|].
  assert (Hlen : (1 <= length (e :: es))%nat) by (simpl; lia).
  rewrite <- Hes in Hlen.
  assert (Hle : (length (flat_map (contribs year tid) df)
                 <= length (games_won year tid df) + length (games_lost year tid df))%nat).
  { clear. unfold games_won, games_lost.
    induction df as [|row df IH]; simpl; [lia|].
    rewrite length_app, !filter_cons. unfold contribs at 1.
    destruct (decide (Season row = year /\ WTeamID row = tid)) as [Hw|Hw];
      destruct (decide (Season row = year /\ LTeamID row = tid)) as [Hl|Hl];
      rewrite ?(bool_decide_eq_true_2 _ Hw), ?(bool_decide_eq_false_2 _ Hw),
        ?(bool_decide_eq_true_2 _ Hl), ?(bool_decide_eq_false_2 _ Hl);
      rewrite ?(decide_True _ _ Hw), ?(decide_False _ _ Hw),
        ?(decide_True _ _ Hl), ?(decide_False _ _ Hl);
      simpl in *; lia. }
  lia.
Qed.

(** X3: every [T] total of an accumulator is the sum of the team's own
    stat over its games (the winner's columns of the games it won, the
    loser's columns of those it lost), and every [O] total the sum of its
    opponents' stat over the same games. *)
Theorem totals_are_sums (df : list Game) (stats : Stats) (year : Z) (tid : string)
    (acc : TeamSeasonStats) :
  compute_season_stats df = Ok stats ->
  lookup_team year tid stats = Some acc ->
  forall sn : StatName,
    box_get sn (T acc)
    = sumZ ((fun row => box_get sn (Wbox row)) <$> games_won year tid df)
      + sumZ ((fun row => box_get sn (Lbox row)) <$> games_lost year tid df)
    /\ box_get sn (O acc)
       = sumZ ((fun row => box_get sn (Lbox row)) <$> games_won year tid df)
         + sumZ ((fun row => box_get sn (Wbox row)) <$> games_lost year tid df).
Proof.
  intros Hrun Hacc sn.
  rewrite (compute_season_stats_acc _ _ _ _ _ Hrun Hacc).
  destruct (fold_acc_plus_fields (flat_map (contribs year tid) df) init_stats)
    as (_ & _ & _ & _ & _ & _ & _ & _ & HT & HO).
  destruct (contribs_fields year tid df) as (_ & _ & _ & _ & _ & _ & _ & _ & FT & FO).
  rewrite HT, HO, FT, FO. cbn [T O init_stats]. by destruct sn.
Qed.

(** X4: the histories of an accumulator list the team's games in the
    order of the input: [opps] the opponents, [scores] the pairs of own and
    opponent's score, [HA] the location from the team's side, [poss] and
    [nOT] the possessions and overtimes of each game (a game of a team
    against itself is listed twice, as a win and then as a loss). *)
Theorem histories_in_input_order (df : list Game) (stats : Stats) (year : Z)
    (tid : string) (acc : TeamSeasonStats) :
  compute_season_stats df = Ok stats ->
  lookup_team year tid stats = Some acc ->
  opps acc = flat_map (opps_of year tid) df
  /\ scores acc = flat_map (scores_of year tid) df
  /\ HA acc = flat_map (HA_of year tid) df
  /\ poss acc = flat_map (fun row => twice_if_both year tid row (row_poss row)) df
  /\ nOT acc = flat_map (fun row => twice_if_both year tid row (NumOT row)) df.
Proof.
  intros Hrun Hacc.
  rewrite (compute_season_stats_acc _ _ _ _ _ Hrun Hacc).
  destruct (fold_acc_plus_fields (flat_map (contribs year tid) df) init_stats)
    as (_ & _ & _ & H4 & H5 & H6 & H7 & H8 & _).
  destruct (contribs_fields year tid df) as (_ & _ & _ & F4 & F5 & F6 & F7 & F8 & _).
  rewrite H4, H5, H6, H7, H8, F4, F5, F6, F7, F8. done.
Qed.

(** X5: the totals agree with the histories: [TScore] is the sum of the
    team's own scores in [scores], [OScore] the sum of the opponents'
    scores, and [totOT] the sum of [nOT]. *)
Theorem totals_match_histories (df : list Game) (stats : Stats) (year : Z)
    (tid : string) (acc : TeamSeasonStats) :
  compute_season_stats df = Ok stats ->
  lookup_team year tid stats = Some acc ->
  b_Score (T acc) = sumZ (fst <$> scores acc)
  /\ b_Score (O acc) = sumZ (snd <$> scores acc)
  /\ totOT acc = sumZ (nOT acc).
Proof.
  intros Hrun Hacc.
  destruct (compute_season_stats_lookup df) as (stats' & Hrun' & Hlook).
  assert (stats' = stats) as -> by congruence.
  rewrite Hlook in Hacc. revert acc Hacc.
  apply (fold_add_entry_invariant
           (fun a => b_Score (T a) = sumZ (fst <$> scores a)
                     /\ b_Score (O a) = sumZ (snd <$> scores a)
                     /\ totOT a = sumZ (nOT a))
           (fun d => b_Score (T d) = sumZ (fst <$> scores d)
                     /\ b_Score (O d) = sumZ (snd <$> scores d)
                     /\ totOT d = sumZ (nOT d))).
  - done.
  - intros a d (A1 & A2 & A3) (D1 & D2 & D3). cbn.
    rewrite !fmap_app, !sumZ_app. lia.
  - apply contribs_Forall; intros row; cbn; unfold sumZ; cbn; lia.
  - discriminate.
Qed.

End SeasonExtras.

Import Utils Ref Examples.

(** [wins_losses_count] on the three games of [Examples]. *)
Lemma wins_losses_count_witness :
  wins purdue_acc = 2 /\ losses purdue_acc = 1 /\ totOT purdue_acc = 1.
Proof.
  destruct (wins_losses_count games season_stats 2020 "purdue" purdue_acc
              ltac:(vm_compute; reflexivity) ltac:(vm_compute; reflexivity))
    as (Hw & Hl & Hot & _).
  split; [exact Hw|]. split; [exact Hl|exact Hot].
Defined.

(** [totals_are_sums] on the three games of [Examples]. *)
Lemma totals_are_sums_witness :
  b_Score (T purdue_acc) = 70 + 68 + 77 /\ b_Score (O purdue_acc) = 65 + 59 + 81.
Proof.
  exact (totals_are_sums games season_stats 2020 "purdue" purdue_acc
           ltac:(vm_compute; reflexivity) ltac:(vm_compute; reflexivity) Score).
Defined.

(** [histories_in_input_order] on the three games of [Examples]. *)
Lemma histories_in_input_order_witness :
  opps purdue_acc = ["indiana"; "iowa"; "rutgers"]
  /\ scores purdue_acc = [(70, 65); (77, 81); (68, 59)]
  /\ HA purdue_acc = ["H"; "A"; "N"].
Proof.
  destruct (histories_in_input_order games season_stats 2020 "purdue" purdue_acc
              ltac:(vm_compute; reflexivity) ltac:(vm_compute; reflexivity))
    as (H1 & H2 & H3 & _).
  split; [exact H1|]. split; [exact H2|exact H3].
Defined.

(** [totals_match_histories] on the three games of [Examples]. *)
Lemma totals_match_histories_witness :
  b_Score (T purdue_acc) = sumZ (fst <$> scores purdue_acc)
  /\ totOT purdue_acc = sumZ (nOT purdue_acc).
Proof.
  destruct (totals_match_histories games season_stats 2020 "purdue" purdue_acc
              ltac:(vm_compute; reflexivity) ltac:(vm_compute; reflexivity))
    as (H1 & _ & H3).
  split; [exact H1|exact H3].
Defined.

(** ** [add_advanced_stats]: errors, frame and idempotence *)

Section AdvancedFrame.
Import Utils Ref.
Implicit Types (df : DataFrame) (s : Series) (kvs : list (string * Series)).

Lemma with_columns_union kvs df : with_columns kvs df = list_to_map kvs ∪ df.
Proof.
  induction kvs as [|[k v] kvs IH]; simpl.
  - by rewrite (left_id_L ∅ (∪)).
  - rewrite IH. by rewrite insert_union_l.
Qed.

Lemma with_columns_frame kvs df k :
  k ∉ kvs.*1 -> with_columns kvs df !! k = df !! k.
Proof.
  intros Hk. rewrite with_columns_union.
  apply lookup_union_r. by apply not_elem_of_list_to_map_1.
Qed.

Lemma with_columns_present kvs df k :
  k ∈ kvs.*1 -> is_Some (with_columns kvs df !! k).
Proof.
  intros Hk. rewrite with_columns_union.
  destruct ((list_to_map kvs : DataFrame) !! k) as [v|] eqn:Hv.
  - exists v. by apply lookup_union_Some_l.
  - by apply not_elem_of_list_to_map in Hv.
Qed.

Lemma with_columns_twice kvs df :
  with_columns kvs (with_columns kvs df) = with_columns kvs df.
Proof.
  rewrite !with_columns_union, (assoc_L (∪)). f_equal. apply (idemp_L (∪)).
Qed.

(** The pass for one side, on a frame that has the columns it reads. *)
Lemma advanced_side_run df c fga fta orb tov score ast fgm fgm3 odr :
  c = "T" \/ c = "O" ->
  df !! (c +:+ "FGA") = Some fga -> df !! (c +:+ "FTA") = Some fta ->
  df !! (c +:+ "OR") = Some orb -> df !! (c +:+ "TO") = Some tov ->
  df !! (c +:+ "Score") = Some score -> df !! (c +:+ "Ast") = Some ast ->
  df !! (c +:+ "FGM") = Some fgm -> df !! (c +:+ "FGM3") = Some fgm3 ->
  df !! ((if String.eqb c "O" then "T" else "O") +:+ "DR") = Some odr ->
  advanced_side df c
  = Ok (with_columns (side_values c fga fta orb tov score ast fgm fgm3 odr) df).
Proof. intros. by apply advanced_side_columns. Qed.

Ltac key_through_inserts H :=
  repeat first [ rewrite lookup_insert_ne in H by discriminate
               | rewrite lookup_insert_eq in H; try discriminate H ].

(** The pass for one side returns only when the nine columns it reads are
    there. *)
Lemma advanced_side_inputs df c df' :
  c = "T" \/ c = "O" ->
  advanced_side df c = Ok df' ->
  exists fga fta orb tov score ast fgm fgm3 odr,
    df !! (c +:+ "FGA") = Some fga /\ df !! (c +:+ "FTA") = Some fta
    /\ df !! (c +:+ "OR") = Some orb /\ df !! (c +:+ "TO") = Some tov
    /\ df !! (c +:+ "Score") = Some score /\ df !! (c +:+ "Ast") = Some ast
    /\ df !! (c +:+ "FGM") = Some fgm /\ df !! (c +:+ "FGM3") = Some fgm3
    /\ df !! ((if String.eqb c "O" then "T" else "O") +:+ "DR") = Some odr.
Proof.
  intros Hc Hrun. unfold advanced_side in Hrun.
  destruct Hc as [-> | ->]; cbn [String.eqb Ascii.eqb Bool.eqb String.append] in *.
  all: apply bind_Ok in Hrun as (fga & Hfga%getitem_Ok & Hrun);
    apply bind_Ok in Hrun as (fta & Hfta%getitem_Ok & Hrun);
    apply bind_Ok in Hrun as (orb & Horb%getitem_Ok & Hrun);
    apply bind_Ok in Hrun as (tov & Htov%getitem_Ok & Hrun);
    apply bind_Ok in Hrun as (score & Hscore%getitem_Ok & Hrun);
    apply bind_Ok in Hrun as (possc & _ & Hrun);
    apply bind_Ok in Hrun as (ast & Hast%getitem_Ok & Hrun);
    apply bind_Ok in Hrun as (? & _ & Hrun);
    apply bind_Ok in Hrun as (? & _ & Hrun);
    apply bind_Ok in Hrun as (? & _ & Hrun);
    apply bind_Ok in Hrun as (? & _ & Hrun);
    apply bind_Ok in Hrun as (? & _ & Hrun);
    apply bind_Ok in Hrun as (? & _ & Hrun);
    apply bind_Ok in Hrun as (? & _ & Hrun);
    apply bind_Ok in Hrun as (? & _ & Hrun);
    apply bind_Ok in Hrun as (fgm & Hfgm%getitem_Ok & Hrun);
    apply bind_Ok in Hrun as (fgm3 & Hfgm3%getitem_Ok & Hrun);
    apply bind_Ok in Hrun as (? & _ & Hrun);
    apply bind_Ok in Hrun as (? & _ & Hrun);
    apply bind_Ok in Hrun as (? & _ & Hrun);
    apply bind_Ok in Hrun as (odr & Hodr%getitem_Ok & _);
    key_through_inserts Hscore; key_through_inserts Hast;
    key_through_inserts Hfgm; key_through_inserts Hfgm3; key_through_inserts Hodr;
    by exists fga, fta, orb, tov, score, ast, fgm, fgm3, odr.
Qed.

(** When the pass for one side raises, a column that it reads is missing
    and the error is the [KeyError] of that column. *)
Lemma advanced_side_Raise df c e :
  c = "T" \/ c = "O" ->
  advanced_side df c = Raise e ->
  exists col, col ∈ side_inputs c /\ df !! col = None /\ e = KeyError col.
Proof.
  intros Hc Hrun. unfold advanced_side in Hrun.
  destruct Hc as [-> | ->]; cbn [String.eqb Ascii.eqb Bool.eqb String.append] in *.
  all: repeat
    (apply bind_Raise in Hrun as [Hrun | (? & ?%getitem_Ok & Hrun)];
     [ apply getitem_Raise in Hrun as [Hnone ->];
       key_through_inserts Hnone;
       first [ congruence
             | eexists; split; [|split; [exact Hnone|reflexivity]];
               unfold side_inputs; cbn; rewrite !elem_of_cons; auto 20 ]
     | ]).
  all: discriminate Hrun.
Qed.

End AdvancedFrame.

(** Membership in a list of column names, decided by evaluation. *)
Ltac by_decide := apply (bool_decide_unpack _); vm_compute; exact I.
Ltac not_in_list := by_decide.
Ltac in_list := by_decide.

Section AdvancedExtras.
Import Utils Ref.
Implicit Types (df : DataFrame) (s : Series).

Lemma side_values_keys c fga fta orb tov score ast fgm fgm3 odr :
  (side_values c fga fta orb tov score ast fgm fgm3 odr).*1 = side_columns c.
Proof. reflexivity. Qed.

(** The pass for one side leaves every column but its own seven as it is,
    and its seven are there afterwards. *)
Lemma advanced_side_frame df c df' :
  c = "T" \/ c = "O" ->
  advanced_side df c = Ok df' ->
  (forall k, k ∉ side_columns c -> df' !! k = df !! k)
  /\ (forall k, k ∈ side_columns c -> is_Some (df' !! k)).
Proof.
  intros Hc Hrun.
  destruct (advanced_side_inputs df c df' Hc Hrun)
    as (fga & fta & orb & tov & score & ast & fgm & fgm3 & odr
        & H1 & H2 & H3 & H4 & H5 & H6 & H7 & H8 & H9).
  rewrite (advanced_side_run df c _ _ _ _ _ _ _ _ _ Hc H1 H2 H3 H4 H5 H6 H7 H8 H9) in Hrun.
  injection Hrun as <-. split; intros k Hk.
  - by apply (with_columns_frame (side_values c fga fta orb tov score ast fgm fgm3 odr)).
  - by apply (with_columns_present (side_values c fga fta orb tov score ast fgm fgm3 odr)).
Qed.

(** The whole function, on a frame where it returns: the 21 columns read
    are there, every other column is kept, and the 15 new ones are there. *)
Lemma add_advanced_stats_Ok df df' :
  add_advanced_stats df = Ok df' ->
  (forall col, col ∈ input_columns -> is_Some (df !! col))
  /\ (forall k, k ∉ new_columns -> df' !! k = df !! k)
  /\ (forall k, k ∈ new_columns -> is_Some (df' !! k)).
Proof.
  intros Hrun. unfold add_advanced_stats in Hrun.
  apply bind_Ok in Hrun as (df1 & HT & Hrun).
  apply bind_Ok in Hrun as (df2 & HO & Hrun).
  apply bind_Ok in Hrun as (tposs & Htposs%getitem_Ok & Hrun).
  apply bind_Ok in Hrun as (oposs & Hoposs%getitem_Ok & Hrun).
  apply bind_Ok in Hrun as (w & Hw%getitem_Ok & Hrun).
  apply bind_Ok in Hrun as (l & Hl%getitem_Ok & Hrun).
  apply bind_Ok in Hrun as (ot & Hot%getitem_Ok & Hrun).
  injection Hrun as <-.
  destruct (advanced_side_frame df "T" df1 ltac:(by left) HT) as [FT PT].
  destruct (advanced_side_frame df1 "O" df2 ltac:(by right) HO) as [FO PO].
  destruct (advanced_side_inputs df "T" df1 ltac:(by left) HT)
    as (? & ? & ? & ? & ? & ? & ? & ? & ? & T1 & T2 & T3 & T4 & T5 & T6 & T7 & T8 & T9).
  destruct (advanced_side_inputs df1 "O" df2 ltac:(by right) HO)
    as (? & ? & ? & ? & ? & ? & ? & ? & ? & O1 & O2 & O3 & O4 & O5 & O6 & O7 & O8 & O9).
  rewrite FT in O1, O2, O3, O4, O5, O6, O7, O8, O9 by not_in_list.
  rewrite FO, FT in Hw, Hl, Hot by not_in_list.
  cbn [String.eqb Ascii.eqb Bool.eqb String.append] in *.
  split; [|split].
  - intros col Hcol. unfold input_columns in Hcol.
    repeat (apply elem_of_cons in Hcol as [->|Hcol]; [eauto|]).
    by apply elem_of_nil in Hcol.
  - intros k Hk.
    assert (k <> "rawpace" /\ (k ∉ side_columns "O") /\ (k ∉ side_columns "T")) as (H1 & H2 & H3).
    { unfold new_columns in Hk. rewrite not_elem_of_cons, not_elem_of_app in Hk. tauto. }
    rewrite lookup_insert_ne by done. rewrite FO, FT by done. done.
  - intros k Hk. unfold new_columns in Hk.
    apply elem_of_cons in Hk as [->|Hk]; [rewrite lookup_insert_eq; eauto|].
    destruct (decide (k = "rawpace")) as [->|Hne]; [rewrite lookup_insert_eq; eauto|].
    rewrite lookup_insert_ne by done.
    destruct (decide (k ∈ side_columns "O")) as [HkO|HkO]; [by apply PO|].
    rewrite FO by done. apply PT. apply elem_of_app in Hk as [Hk|Hk]; done.
Qed.

(** When the function raises, a column that it reads is missing. *)
Lemma add_advanced_stats_Raise df e :
  add_advanced_stats df = Raise e ->
  exists col, col ∈ input_columns /\ df !! col = None /\ e = KeyError col.
Proof.
  intros Hrun. unfold add_advanced_stats in Hrun.
  apply bind_Raise in Hrun as [Hrun | (df1 & HT & Hrun)].
  { destruct (advanced_side_Raise df "T" e ltac:(by left) Hrun) as (col & Hin & Hnone & ->).
    exists col. split; [|done]. revert Hin. unfold side_inputs. cbn.
    rewrite !elem_of_cons. intros H. unfold input_columns. rewrite !elem_of_cons. tauto. }
  destruct (advanced_side_frame df "T" df1 ltac:(by left) HT) as [FT PT].
  apply bind_Raise in Hrun as [Hrun | (df2 & HO & Hrun)].
  { destruct (advanced_side_Raise df1 "O" e ltac:(by right) Hrun) as (col & Hin & Hnone & ->).
    exists col. revert Hin. unfold side_inputs. cbn. rewrite !elem_of_cons.
    intros Hin.
    assert (col ∉ side_columns "T") as Hout.
    { repeat (destruct Hin as [->|Hin]; [not_in_list|]). by apply elem_of_nil in Hin. }
    rewrite FT in Hnone by done.
    split; [|done]. unfold input_columns. rewrite !elem_of_cons. tauto. }
  destruct (advanced_side_frame df1 "O" df2 ltac:(by right) HO) as [FO PO].
  assert (HTposs : is_Some (df2 !! "Tposs")).
  { rewrite FO by not_in_list. apply PT. in_list. }
  assert (HOposs : is_Some (df2 !! "Oposs")) by (apply PO; in_list).
  apply bind_Raise in Hrun as [[Hnone _]%getitem_Raise | (tposs & _ & Hrun)].
  { rewrite Hnone in HTposs. by destruct HTposs. }
  apply bind_Raise in Hrun as [[Hnone _]%getitem_Raise | (oposs & _ & Hrun)].
  { rewrite Hnone in HOposs. by destruct HOposs. }
  apply bind_Raise in Hrun as [[Hnone ->]%getitem_Raise | (w & _ & Hrun)].
  { rewrite FO, FT in Hnone by not_in_list. exists "wins". split; [in_list|done]. }
  apply bind_Raise in Hrun as [[Hnone ->]%getitem_Raise | (l & _ & Hrun)].
  { rewrite FO, FT in Hnone by not_in_list. exists "losses". split; [in_list|done]. }
  apply bind_Raise in Hrun as [[Hnone ->]%getitem_Raise | (ot & _ & Hrun)].
  { rewrite FO, FT in Hnone by not_in_list. exists "totOT". split; [in_list|done]. }
  discriminate Hrun.
Qed.

(** X6: [add_advanced_stats] returns exactly when the frame has the 21
    columns of totals that it reads; otherwise it raises the [KeyError] of
    one of them that is missing. *)
Theorem advanced_stats_key_errors (df : DataFrame) :
  ((exists df', add_advanced_stats df = Ok df')
   <-> forall col, col ∈ input_columns -> is_Some (df !! col))
  /\ forall e, add_advanced_stats df = Raise e ->
       exists col, col ∈ input_columns /\ df !! col = None /\ e = KeyError col.
Proof.
  split; [split|].
  - intros [df' Hrun]. by destruct (add_advanced_stats_Ok df df' Hrun) as [H _].
  - intros Hall. destruct (add_advanced_stats df) as [df'|e] eqn:Hrun; [eauto|].
    destruct (add_advanced_stats_Raise df e Hrun) as (col & Hin & Hnone & _).
    destruct (Hall col Hin) as [s Hs]. congruence.
  - apply add_advanced_stats_Raise.
Qed.

(** X7: [add_advanced_stats] writes the fifteen columns [Tposs .. Tftr],
    [Oposs .. Oftr] and [rawpace], and leaves every other column of the
    frame as it was. *)
Theorem advanced_stats_frame (df df' : DataFrame) :
  add_advanced_stats df = Ok df' ->
  (forall k, k ∉ new_columns -> df' !! k = df !! k)
  /\ (forall k, k ∈ new_columns -> is_Some (df' !! k)).
Proof. intros Hrun. by destruct (add_advanced_stats_Ok df df' Hrun) as (_ & H1 & H2). Qed.

(** The whole function as one write of the fifteen columns. *)
Lemma add_advanced_stats_run df :
  (forall col, col ∈ input_columns -> is_Some (df !! col)) ->
  add_advanced_stats df = Ok (with_columns (advanced_values df) df).
Proof.
  intros Hall.
  assert (Hcol : forall k, k ∈ input_columns -> df !! k = Some (col df k)).
  { intros k Hk. destruct (Hall k Hk) as [s Hs]. unfold col. by rewrite Hs. }
  unfold add_advanced_stats.
  rewrite (advanced_side_run df "T" (col df "TFGA") (col df "TFTA") (col df "TOR")
             (col df "TTO") (col df "TScore") (col df "TAst") (col df "TFGM")
             (col df "TFGM3") (col df "ODR"))
    by (first [by left | apply Hcol; in_list]).
  cbn [mbind res_bind bind].
  rewrite (advanced_side_run _ "O" (col df "OFGA") (col df "OFTA") (col df "OOR")
             (col df "OTO") (col df "OScore") (col df "OAst") (col df "OFGM")
             (col df "OFGM3") (col df "TDR"))
    by (first [by right
              | rewrite with_columns_frame by not_in_list; apply Hcol; in_list]).
  cbn [mbind res_bind bind].
  unfold with_columns. cbn [foldr side_values fst snd String.append].
  repeat (erewrite getitem_Some
            by (rewrite ?lookup_insert_ne by discriminate;
                first [apply lookup_insert_eq | apply Hcol; in_list]);
          cbn [mbind res_bind bind]).
  reflexivity.
Qed.

Lemma advanced_values_ext df df' :
  (forall col, col ∈ input_columns -> df' !! col = df !! col) ->
  advanced_values df' = advanced_values df.
Proof.
  intros Hsame.
  assert (Hcol : forall k, k ∈ input_columns -> col df' k = col df k).
  { intros k Hk. unfold col. by rewrite Hsame. }
  unfold advanced_values, side_values_of.
  cbn [String.eqb Ascii.eqb Bool.eqb String.append].
  repeat match goal with
         | |- context [col df' ?k] => rewrite (Hcol k) by in_list
         end.
  reflexivity.
Qed.

(** X8: [add_advanced_stats] is idempotent: run on its own result, it
    returns and changes nothing, since the new columns are computed from
    the totals alone and the totals are not written. *)
Theorem advanced_stats_idempotent (df df' : DataFrame) :
  add_advanced_stats df = Ok df' -> add_advanced_stats df' = Ok df'.
Proof.
  intros Hrun.
  destruct (add_advanced_stats_Ok df df' Hrun) as (Hin & Hkeep & _).
  assert (Hsame : forall col, col ∈ input_columns -> df' !! col = df !! col).
  { intros k Hk. apply Hkeep. revert Hk. unfold input_columns.
    rewrite !elem_of_cons. intros Hk.
    repeat (destruct Hk as [->|Hk]; [not_in_list|]). by apply elem_of_nil in Hk. }
  assert (Hdf' : df' = with_columns (advanced_values df) df).
  { pose proof (add_advanced_stats_run df Hin) as Hrun'. rewrite Hrun in Hrun'.
    exact (f_equal (fun r => match r with Ok d => d | Raise _ => df' end) Hrun'). }
  rewrite add_advanced_stats_run
    by (intros k Hk; rewrite (Hsame k Hk); by apply Hin).
  rewrite (advanced_values_ext df df' Hsame). f_equal.
  rewrite Hdf'. apply with_columns_twice.
Qed.

End AdvancedExtras.

Import Utils Ref Tables.

Lemma advanced_stats_frame_witness :
  totals_advanced !! "wins" = totals !! "wins"
  /\ totals_advanced !! "TFGA" = totals !! "TFGA"
  /\ is_Some (totals_advanced !! "rawpace").
Proof.
  destruct (advanced_stats_frame totals totals_advanced ltac:(vm_compute; reflexivity))
    as [Hkeep Hnew].
  split; [apply Hkeep; not_in_list|].
  split; [apply Hkeep; not_in_list|apply Hnew; in_list].
Defined.

Lemma advanced_stats_idempotent_witness :
  add_advanced_stats totals_advanced = Ok totals_advanced.
Proof.
  exact (advanced_stats_idempotent totals totals_advanced ltac:(vm_compute; reflexivity)).
Defined.
